(** * VLoop crash analysis: a shallow embedding of [analyze_debug.py]

    The script loads a JSON snapshot of a MIDI step looper, finds the slot
    tagged "VLOP" and prints a diagnostic report.  The embedding below follows
    [analyze_crash] statement by statement, from the loaded document on.

    - JSON objects are read by the script at fixed keys, so each object is a
      record whose fields are [option]s: [None] is an absent key.  A present
      field carries a value of the type the data model gives it (integers are
      Python's unbounded [int], here [Z]).
    - [d[key]] is [getitem], which raises [KeyError] on an absent key;
      [d.get(key, default)] is [get].
    - Standard output is the list of the arguments of the successive [print]
      calls; an uncaught exception ends the run and keeps what was printed.
    - [int / int] is Python's correctly rounded binary64 quotient, kept as an
      exact dyadic number, and [:.1f] / [:.2f] round that number half-to-even
      on its exact value, as CPython does. *)

From Stdlib Require Import ZArith List String Ascii Bool Lia Permutation.
From Stdlib Require Import DecimalString HexadecimalString.
Import ListNotations.

Local Open Scope string_scope.
Local Open Scope Z_scope.

(** ** The snapshot document *)

Record MidiEvent := mkMidiEvent {
  status : option Z;
  data1 : option Z;
  data2 : option Z
}.

Record Bucket := mkBucket {
  pulse : option Z;
  events : option (list MidiEvent)
}.

Record Counters := mkCounters {
  stepCallCount : option Z;
  totalClockEdges : option Z;
  totalMidiReceived : option Z;
  totalMidiSent : option Z;
  lastPulseWithMidi : option Z;
  lastMidiSent : option MidiEvent
}.

Record Slot := mkSlot {
  guid : option string;
  loopLength : option Z;
  currentPulse : option Z;
  isRecording : option bool;
  isPlaying : option bool;
  debug : option Counters;
  buckets : option (list Bucket)
}.

Record Snapshot := mkSnapshot {
  slots : option (list Slot)
}.

(** The empty dictionary [{}] used as a default for [debug] and for
    [lastMidiSent]. *)
Definition empty_counters : Counters := mkCounters None None None None None None.
Definition empty_event : MidiEvent := mkMidiEvent None None None.

(** ** Runs: printed output and outcome *)

Inductive exn :=
| KeyError (key : string)
| ValueError
| ZeroDivisionError
| OverflowError.

Record run (A : Type) := Run {
  stdout : list string;
  outcome : exn + A
}.
Arguments Run {A} _ _.
Arguments stdout {A} _.
Arguments outcome {A} _.

Definition ret {A} (a : A) : run A := Run [] (inr a).

Definition raise {A} (e : exn) : run A := Run [] (inl e).

Definition bind {A B} (c : run A) (k : A -> run B) : run B :=
  match outcome c with
  | inl e => Run (stdout c) (inl e)
  | inr a => Run (stdout c ++ stdout (k a))%list (outcome (k a))
  end.

Notation "x <- c ;; k" := (bind c (fun x => k))
  (at level 61, c at next level, right associativity).
Notation "c ;; k" := (bind c (fun _ => k))
  (at level 61, right associativity).

Definition print (s : string) : run unit := Run [s] (inr tt).

(** [d[key]] *)
Definition getitem {A} (key : string) (field : option A) : run A :=
  match field with
  | Some v => ret v
  | None => raise (KeyError key)
  end.

(** [d.get(key, default)] *)
Definition get {A} (field : option A) (default : A) : A :=
  match field with
  | Some v => v
  | None => default
  end.

(** [[f(x) for x in l]], stopping at the first exception. *)
Fixpoint mapM {A B} (f : A -> run B) (l : list A) : run (list B) :=
  match l with
  | [] => ret []
  | x :: rest => y <- f x ;; ys <- mapM f rest ;; ret (y :: ys)
  end.

(** ** Python's built-in conversions *)

Definition nl : string := String "010"%char EmptyString.

(** [s * n] *)
Fixpoint str_mul (s : string) (n : nat) : string :=
  match n with
  | O => EmptyString
  | S n' => s ++ str_mul s n'
  end.

(** [str(z)] of an int *)
Definition str (z : Z) : string :=
  DecimalString.NilZero.string_of_int (Z.to_int z).

(** [str(b)] of a bool *)
Definition str_bool (b : bool) : string := if b then "True" else "False".

(** [hex(z)] *)
Definition hex (z : Z) : string :=
  (if z <? 0 then "-0x" else "0x")
  ++ HexadecimalString.NilZero.string_of_uint (N.to_hex_uint (Z.abs_N z)).

(** [len(l)] *)
Definition len {A} (l : list A) : Z := Z.of_nat (List.length l).

(** [sum(l)]: starts from 0 and adds from the left. *)
Definition sum (l : list Z) : Z := fold_left Z.add l 0.

(** [max(l)]: keeps the first of the largest items; [ValueError] on an empty
    argument. *)
Definition py_max (l : list Z) : run Z :=
  match l with
  | [] => raise ValueError
  | x :: rest => ret (fold_left (fun m y => if m <? y then y else m) rest x)
  end.

(** A comma before every group of three digits counted from the right. *)
Fixpoint commas (digits : string) : string :=
  match digits with
  | EmptyString => EmptyString
  | String c rest =>
      String c
        (if negb (String.length rest =? 0)%nat
            && (Nat.modulo (String.length rest) 3 =? 0)%nat
         then String ","%char (commas rest)
         else commas rest)
  end.

(** [f"{z:,}"] *)
Definition format_comma (z : Z) : string :=
  (if z <? 0 then "-" else "") ++ commas (str (Z.abs z)).

(** ** Floats *)

(** A finite binary64 value [(-1)^neg * mant * 2^expo]. *)
Record pyfloat := Float {
  f_neg : bool;
  f_mant : Z;
  f_exp : Z
}.

(** The integer nearest to [n / d] for [0 <= n] and [0 < d], ties to even. *)
Definition rne (n d : Z) : Z :=
  let q := n / d in
  let r := n mod d in
  if 2 * r <? d then q
  else if d <? 2 * r then q + 1
  else if Z.even q then q else q + 1.

(** [d * 2^k <= n], for an exponent [k] of either sign. *)
Definition scaled_le (d k n : Z) : bool :=
  if 0 <=? k then d * 2 ^ k <=? n else d <=? n * 2 ^ (- k).

(** The exponent of the leading bit of [n / d], for positive [n] and [d]:
    the [e] with [2^e <= n / d < 2^(e+1)]. *)
Definition quotient_exp (n d : Z) : Z :=
  let k := Z.log2 n - Z.log2 d in
  if scaled_le d k n then k else k - 1.

(** [a / b] on ints: the binary64 number nearest to the exact quotient (53
    bits of precision, exponents down to -1074), [ZeroDivisionError] for a zero
    divisor and [OverflowError] when the rounded quotient reaches [2^1024]. *)
Definition true_divide (a b : Z) : run pyfloat :=
  if b =? 0 then raise ZeroDivisionError
  else
    let neg := xorb (a <? 0) (b <? 0) in
    let n := Z.abs a in
    let d := Z.abs b in
    if n =? 0 then ret (Float neg 0 0)
    else
      let e := Z.max (quotient_exp n d - 52) (-1074) in
      let m := if 0 <=? e then rne n (d * 2 ^ e) else rne (n * 2 ^ (- e)) d in
      if (971 <? e) || ((e =? 971) && (m =? 2 ^ 53))
      then raise OverflowError
      else ret (Float neg m e).

(** Left padding with zeros up to [width] characters. *)
Definition zero_pad (width : nat) (s : string) : string :=
  str_mul "0" (width - String.length s) ++ s.

(** The exact value of [x] times [10^prec], rounded half-to-even to an
    integer. *)
Definition scaled (prec : nat) (x : pyfloat) : Z :=
  let scale := 10 ^ Z.of_nat prec in
  if 0 <=? f_exp x then f_mant x * 2 ^ f_exp x * scale
  else rne (f_mant x * scale) (2 ^ (- f_exp x)).

(** [f"{x:.<prec>f}"]: the sign, the integer part and [prec] decimals of the
    rounded value. *)
Definition format_f (prec : nat) (x : pyfloat) : string :=
  let scale := 10 ^ Z.of_nat prec in
  let t := scaled prec x in
  (if f_neg x then "-" else "")
  ++ str (t / scale)
  ++ (match prec with
      | O => ""
      | _ => "." ++ zero_pad prec (str (t mod scale))
      end).

(** ** The report *)

Definition rule : string := str_mul "=" 70.
Definition playback_header : string := nl ++ "=== PLAYBACK STATE ===".
Definition counters_header : string := nl ++ "=== DEBUG COUNTERS ===".
Definition bucket_header : string := nl ++ "=== BUCKET ANALYSIS ===".
Definition crash_header (crash_pulse : Z) : string :=
  nl ++ "=== CRASH POINT (Pulse " ++ str crash_pulse ++ ") ===".
Definition surrounding_header : string := nl ++ "=== SURROUNDING BUCKETS ===".
Definition perf_header : string := nl ++ "=== PERFORMANCE STATS ===".

(** Lines 12-16: the first slot whose [guid] is "VLOP".  [slot.get('guid')]
    is [None] for an absent key, which differs from the tag. *)
Fixpoint find_vloop (slots : list Slot) : option Slot :=
  match slots with
  | [] => None
  | slot :: rest =>
      if match guid slot with
         | Some g => String.eqb g "VLOP"
         | None => false
         end
      then Some slot
      else find_vloop rest
  end.

(** Lines 27-31. *)
Definition playback_state (vloop : Slot) : run unit :=
  print playback_header ;;
  loop_length <- getitem "loopLength" (loopLength vloop) ;;
  print ("Loop Length:    " ++ str loop_length ++ " pulses") ;;
  current_pulse <- getitem "currentPulse" (currentPulse vloop) ;;
  print ("Current Pulse:  " ++ str current_pulse ++ " <-- CRASHED HERE") ;;
  is_recording <- getitem "isRecording" (isRecording vloop) ;;
  print ("Is Recording:   " ++ str_bool is_recording) ;;
  is_playing <- getitem "isPlaying" (isPlaying vloop) ;;
  print ("Is Playing:     " ++ str_bool is_playing).

(** Lines 35-39. *)
Definition debug_counters (debug : Counters) : run unit :=
  print counters_header ;;
  print ("Total step() calls:     " ++ format_comma (get (stepCallCount debug) 0)) ;;
  print ("Total clock edges:      " ++ format_comma (get (totalClockEdges debug) 0)) ;;
  print ("Total MIDI received:    " ++ format_comma (get (totalMidiReceived debug) 0)) ;;
  print ("Total MIDI sent:        " ++ format_comma (get (totalMidiSent debug) 0)).

(** Lines 41-56: the last message sent, decoded and printed. *)
Definition last_midi_sent (debug : Counters) : run unit :=
  let last_midi := get (lastMidiSent debug) empty_event in
  print (nl ++ "Last MIDI sent at pulse "
         ++ str (get (lastPulseWithMidi debug) 0) ++ ":") ;;
  let status := get (status last_midi) 0 in
  let data1 := get (data1 last_midi) 0 in
  let data2 := get (data2 last_midi) 0 in
  let msg_type := Z.land status 0xF0 in
  let channel := Z.land status 0x0F + 1 in
  if msg_type =? 0x90 then
    print ("  Note On ch" ++ str channel ++ ": note=" ++ str data1 ++ " vel=" ++ str data2)
  else if msg_type =? 0x80 then
    print ("  Note Off ch" ++ str channel ++ ": note=" ++ str data1 ++ " vel=" ++ str data2)
  else if msg_type =? 0xB0 then
    print ("  CC ch" ++ str channel ++ ": cc=" ++ str data1 ++ " val=" ++ str data2)
  else
    print ("  Status=" ++ hex status ++ " data1=" ++ str data1 ++ " data2=" ++ str data2).

(** Lines 60-69. *)
Definition bucket_analysis (vloop : Slot) (buckets : list Bucket) : run unit :=
  print bucket_header ;;
  loop_length <- getitem "loopLength" (loopLength vloop) ;;
  print ("Non-empty buckets: " ++ str (len buckets) ++ "/" ++ str loop_length) ;;
  pulse_numbers <- mapM (fun b => getitem "pulse" (pulse b)) buckets ;;
  counts <- mapM (fun b => evs <- getitem "events" (events b) ;; ret (len evs)) buckets ;;
  let total_events := sum counts in
  max_events <-
    (match buckets with
     | [] => ret 0
     | _ :: _ =>
         counts' <- mapM (fun b => evs <- getitem "events" (events b) ;; ret (len evs))
                      buckets ;;
         py_max counts'
     end) ;;
  print ("Total recorded events: " ++ str total_events) ;;
  print ("Max events per bucket: " ++ str max_events).

(** Lines 75-79: the first bucket at the crash pulse. *)
Fixpoint find_crash_bucket (crash_pulse : Z) (buckets : list Bucket)
  : run (option Bucket) :=
  match buckets with
  | [] => ret None
  | b :: rest =>
      p <- getitem "pulse" (pulse b) ;;
      if p =? crash_pulse then ret (Some b)
      else find_crash_bucket crash_pulse rest
  end.

(** Lines 85-98: the description of one stored event. *)
Definition event_msg (status d1 d2 : Z) : string :=
  let msg_type := Z.land status 0xF0 in
  let ch := Z.land status 0x0F + 1 in
  if msg_type =? 0x90 then
    "Note On ch" ++ str ch ++ ": note=" ++ str d1 ++ " vel=" ++ str d2
  else if msg_type =? 0x80 then
    "Note Off ch" ++ str ch ++ ": note=" ++ str d1 ++ " vel=" ++ str d2
  else if msg_type =? 0xB0 then
    "CC ch" ++ str ch ++ ": cc=" ++ str d1 ++ " val=" ++ str d2
  else
    "Status=" ++ hex status ++ " data1=" ++ str d1 ++ " data2=" ++ str d2.

(** Lines 84-101: [for i, ev in enumerate(events)], from index [i] on. *)
Fixpoint print_events (i : Z) (events : list MidiEvent) : run unit :=
  match events with
  | [] => ret tt
  | ev :: rest =>
      status <- getitem "status" (status ev) ;;
      d1 <- getitem "data1" (data1 ev) ;;
      d2 <- getitem "data2" (data2 ev) ;;
      let msg := event_msg status d1 d2 in
      let marker := if i =? 0 then " <-- WOULD SEND THIS" else "" in
      print ("  Event " ++ str i ++ ": " ++ msg ++ marker) ;;
      print_events (i + 1) rest
  end.

(** Lines 73-103.  A bucket that was found has a [pulse] key, so as a
    dictionary it is not empty and [if crash_bucket:] tests for [None]. *)
Definition crash_point (crash_pulse : Z) (buckets : list Bucket) : run unit :=
  print (crash_header crash_pulse) ;;
  crash_bucket <- find_crash_bucket crash_pulse buckets ;;
  match crash_bucket with
  | Some b =>
      events <- getitem "events" (events b) ;;
      print ("Bucket at crash has " ++ str (len events) ++ " events:") ;;
      print_events 0 events
  | None => print "Bucket at crash pulse is EMPTY (no events)"
  end.

(** Lines 107-112. *)
Fixpoint surrounding_loop (crash_pulse : Z) (buckets : list Bucket) : run unit :=
  match buckets with
  | [] => ret tt
  | b :: rest =>
      p <- getitem "pulse" (pulse b) ;;
      (if (crash_pulse - 3 <=? p) && (p <=? crash_pulse + 3) then
         pulse <- getitem "pulse" (pulse b) ;;
         events <- getitem "events" (events b) ;;
         let marker := if pulse =? crash_pulse then " <-- CRASH" else "" in
         print ("Pulse " ++ str pulse ++ ": " ++ str (len events) ++ " events" ++ marker)
       else ret tt) ;;
      surrounding_loop crash_pulse rest
  end.

(** Lines 106-112. *)
Definition surrounding_buckets (crash_pulse : Z) (buckets : list Bucket) : run unit :=
  print surrounding_header ;;
  surrounding_loop crash_pulse buckets.

(** Lines 115-122. *)
Definition performance_stats (vloop : Slot) (debug : Counters) : run unit :=
  print perf_header ;;
  if 0 <? get (totalClockEdges debug) 0 then
    avg_frames <- true_divide (get (stepCallCount debug) 0)
                              (get (totalClockEdges debug) 1) ;;
    print ("Avg step() calls per clock: " ++ format_f 1 avg_frames) ;;
    loop_length <- getitem "loopLength" (loopLength vloop) ;;
    if 0 <? loop_length then
      loops_played <- true_divide (get (totalClockEdges debug) 0) loop_length ;;
      print ("Loops played before crash: " ++ format_f 2 loops_played)
    else ret tt
  else ret tt.

(** Lines 11-122: [analyze_crash], from the document that [json.load]
    returned.  A slot that was found has a [guid] key, so [if not vloop:]
    tests for [None]. *)
Definition analyze_crash (data : Snapshot) : run unit :=
  slots <- getitem "slots" (slots data) ;;
  match find_vloop slots with
  | None => print "ERROR: VLoop slot not found"
  | Some vloop =>
      print rule ;;
      print "VLoop CRASH ANALYSIS" ;;
      print rule ;;
      playback_state vloop ;;
      let debug := get (debug vloop) empty_counters in
      debug_counters debug ;;
      last_midi_sent debug ;;
      let buckets := get (buckets vloop) [] in
      bucket_analysis vloop buckets ;;
      crash_pulse <- getitem "currentPulse" (currentPulse vloop) ;;
      crash_point crash_pulse buckets ;;
      surrounding_buckets crash_pulse buckets ;;
      performance_stats vloop debug
  end.

(** ** Reading a report *)

(** Section headers are the printed entries that start with a blank line and
    three equal signs. *)
(** [s.startswith(p)] *)
Fixpoint starts_with (p s : string) : bool :=
  match p, s with
  | EmptyString, _ => true
  | String _ _, EmptyString => false
  | String a p', String b s' => Ascii.eqb a b && starts_with p' s'
  end.

Definition is_header (l : string) : bool := starts_with (nl ++ "===") l.

(** The printed entries up to the next section header. *)
Fixpoint section_body (out : list string) : list string :=
  match out with
  | [] => []
  | l :: rest => if is_header l then [] else l :: section_body rest
  end.

(** The body of the section that the entry [h] opens, if [h] was printed. *)
Fixpoint section_of (h : string) (out : list string) : option (list string) :=
  match out with
  | [] => None
  | l :: rest => if String.eqb l h then Some (section_body rest) else section_of h rest
  end.

(** ** Snapshots that the report reads without a missing key *)

Definition has {A} (field : option A) : bool :=
  match field with
  | Some _ => true
  | None => false
  end.

Definition pulse_of (b : Bucket) : Z := get (pulse b) 0.
Definition events_of (b : Bucket) : list MidiEvent := get (events b) [].
Definition buckets_of (vloop : Slot) : list Bucket := get (buckets vloop) [].
Definition debug_of (vloop : Slot) : Counters := get (debug vloop) empty_counters.
Definition loop_length_of (vloop : Slot) : Z := get (loopLength vloop) 0.
Definition crash_pulse_of (vloop : Slot) : Z := get (currentPulse vloop) 0.

Definition event_ok (e : MidiEvent) : bool :=
  has (status e) && has (data1 e) && has (data2 e).

Definition bucket_ok (b : Bucket) : bool := has (pulse b) && has (events b).

(** The first bucket stored at pulse [p]. *)
Definition bucket_at (p : Z) (bs : list Bucket) : option Bucket :=
  find (fun b => pulse_of b =? p) bs.

(** Every key that the report reads with [d[key]] is present: the four
    playback fields, [pulse] and [events] of every bucket, and the three bytes
    of every event of the crash-point bucket. *)
Definition slot_ok (vloop : Slot) : bool :=
  has (loopLength vloop) && has (currentPulse vloop)
  && has (isRecording vloop) && has (isPlaying vloop)
  && forallb bucket_ok (buckets_of vloop)
  && match bucket_at (crash_pulse_of vloop) (buckets_of vloop) with
     | Some b => forallb event_ok (events_of b)
     | None => true
     end.

(** The slot that the report is about. *)
Definition vloop_of (data : Snapshot) : option Slot :=
  match slots data with
  | Some sl => find_vloop sl
  | None => None
  end.

(** ** The sections in the words of the specification *)

Definition decode (e : MidiEvent) : string :=
  event_msg (get (status e) 0) (get (data1 e) 0) (get (data2 e) 0).

(** Event [i] of the crash-point bucket; only event 0 carries the mark. *)
Definition event_line (i : nat) (e : MidiEvent) : string :=
  "  Event " ++ str (Z.of_nat i) ++ ": " ++ decode e
  ++ (if Nat.eqb i 0 then " <-- WOULD SEND THIS" else "").

Definition event_lines (evs : list MidiEvent) : list string :=
  map (fun ie => event_line (fst ie) (snd ie)) (combine (seq 0 (List.length evs)) evs).

Definition crash_lines (crash_pulse : Z) (bs : list Bucket) : list string :=
  match bucket_at crash_pulse bs with
  | Some b =>
      ("Bucket at crash has " ++ str (len (events_of b)) ++ " events:")
        :: event_lines (events_of b)
  | None => ["Bucket at crash pulse is EMPTY (no events)"]
  end.

Definition in_window (crash_pulse : Z) (b : Bucket) : bool :=
  (crash_pulse - 3 <=? pulse_of b) && (pulse_of b <=? crash_pulse + 3).

Definition context_line (crash_pulse : Z) (b : Bucket) : string :=
  "Pulse " ++ str (pulse_of b) ++ ": " ++ str (len (events_of b)) ++ " events"
  ++ (if pulse_of b =? crash_pulse then " <-- CRASH" else "").

Definition surrounding_lines (crash_pulse : Z) (bs : list Bucket) : list string :=
  map (context_line crash_pulse) (filter (in_window crash_pulse) bs).

(** The number of events stored in each bucket. *)
Definition event_counts (bs : list Bucket) : list nat :=
  map (fun b => List.length (events_of b)) bs.

Definition bucket_lines (loop_length : Z) (bs : list Bucket) : list string :=
  [ "Non-empty buckets: " ++ str (Z.of_nat (List.length bs)) ++ "/" ++ str loop_length;
    "Total recorded events: " ++ str (Z.of_nat (list_sum (event_counts bs)));
    "Max events per bucket: " ++ str (Z.of_nat (list_max (event_counts bs))) ].

Arguments str : simpl never.
Arguments hex : simpl never.
Arguments format_comma : simpl never.
Arguments format_f : simpl never.
Arguments true_divide : simpl never.

(** ** The report on a slot with all its keys *)

Definition report_head (vloop : Slot) : list string :=
  [ rule; "VLoop CRASH ANALYSIS"; rule;
    playback_header;
    "Loop Length:    " ++ str (loop_length_of vloop) ++ " pulses";
    "Current Pulse:  " ++ str (crash_pulse_of vloop) ++ " <-- CRASHED HERE";
    "Is Recording:   " ++ str_bool (get (isRecording vloop) false);
    "Is Playing:     " ++ str_bool (get (isPlaying vloop) false);
    counters_header;
    "Total step() calls:     " ++ format_comma (get (stepCallCount (debug_of vloop)) 0);
    "Total clock edges:      " ++ format_comma (get (totalClockEdges (debug_of vloop)) 0);
    "Total MIDI received:    " ++ format_comma (get (totalMidiReceived (debug_of vloop)) 0);
    "Total MIDI sent:        " ++ format_comma (get (totalMidiSent (debug_of vloop)) 0);
    nl ++ "Last MIDI sent at pulse "
      ++ str (get (lastPulseWithMidi (debug_of vloop)) 0) ++ ":";
    "  " ++ decode (get (lastMidiSent (debug_of vloop)) empty_event) ].

(** Lines that do not start with a line break are neither headers nor equal
    to one. *)
Definition plain (l : string) : Prop := starts_with nl l = false.

(** ** What a run can print and raise *)

(** Every printed entry satisfies [P] and every exception raised satisfies
    [Q]. *)
Definition run_sat {A} (P : string -> Prop) (Q : exn -> Prop) (r : run A) : Prop :=
  Forall P (stdout r) /\ forall e, outcome r = inl e -> Q e.

(** What the report can raise: a missing key, or a quotient too large for a
    float; never a division by zero and never the maximum of nothing. *)
Definition expected (e : exn) : Prop :=
  match e with
  | KeyError _ | OverflowError => True
  | ValueError | ZeroDivisionError => False
  end.

(** The lines of the report proper differ from the slot-not-found line. *)
Definition report_line (l : string) : Prop := starts_with "ERROR" l = false.

(** ** The rendering rule and the invariants of the data model *)

(** The rendering of a message once its type and channel are known. *)
Definition render (message_type channel status d1 d2 : Z) : string :=
  if message_type =? 0x90 then
    "Note On ch" ++ str channel ++ ": note=" ++ str d1 ++ " vel=" ++ str d2
  else if message_type =? 0x80 then
    "Note Off ch" ++ str channel ++ ": note=" ++ str d1 ++ " vel=" ++ str d2
  else if message_type =? 0xB0 then
    "CC ch" ++ str channel ++ ": cc=" ++ str d1 ++ " val=" ++ str d2
  else
    "Status=" ++ hex status ++ " data1=" ++ str d1 ++ " data2=" ++ str d2.

(** The invariants of the data model: a loop length that is not negative and
    buckets with distinct pulses inside the loop, each with an event. *)
Definition valid_buckets (vloop : Slot) : Prop :=
  0 <= loop_length_of vloop
  /\ NoDup (map pulse_of (buckets_of vloop))
  /\ Forall (fun b => 0 <= pulse_of b < loop_length_of vloop /\ events_of b <> [])
       (buckets_of vloop).

(** ** Defaults written out *)

(** The snapshot with every optional field written out at its default: the
    counters and [lastPulseWithMidi] at 0, the bytes of [lastMidiSent] at 0,
    the bucket list empty. *)
Definition default_event (m : MidiEvent) : MidiEvent :=
  mkMidiEvent (Some (get (status m) 0)) (Some (get (data1 m) 0)) (Some (get (data2 m) 0)).

Definition default_counters (d : Counters) : Counters :=
  mkCounters (Some (get (stepCallCount d) 0)) (Some (get (totalClockEdges d) 0))
    (Some (get (totalMidiReceived d) 0)) (Some (get (totalMidiSent d) 0))
    (Some (get (lastPulseWithMidi d) 0))
    (Some (default_event (get (lastMidiSent d) empty_event))).

Definition default_slot (s : Slot) : Slot :=
  mkSlot (guid s) (loopLength s) (currentPulse s) (isRecording s) (isPlaying s)
    (Some (default_counters (get (debug s) empty_counters)))
    (Some (get (buckets s) [])).

Definition fill_defaults (data : Snapshot) : Snapshot :=
  mkSnapshot (option_map (map default_slot) (slots data)).

(** ** Missing required keys *)

(** The first key of a bucket that the bucket analysis finds missing: it reads
    [pulse] of every bucket before [events] of any. *)
Definition missing_bucket_key (bs : list Bucket) : option string :=
  if negb (forallb (fun b => has (pulse b)) bs) then Some "pulse"
  else if negb (forallb (fun b => has (events b)) bs) then Some "events"
  else None.

(** The first required key of the looper slot that the report finds missing,
    in the order in which it reads them. *)
Definition missing_slot_key (vloop : Slot) : option string :=
  if negb (has (loopLength vloop)) then Some "loopLength"
  else if negb (has (currentPulse vloop)) then Some "currentPulse"
  else if negb (has (isRecording vloop)) then Some "isRecording"
  else if negb (has (isPlaying vloop)) then Some "isPlaying"
  else missing_bucket_key (buckets_of vloop).

(** The slot lacks one of the four playback fields, or one of its buckets
    lacks [pulse] or [events]. *)
Definition lacks_required (vloop : Slot) : bool :=
  negb (has (loopLength vloop)) || negb (has (currentPulse vloop))
  || negb (has (isRecording vloop)) || negb (has (isPlaying vloop))
  || existsb (fun b => negb (has (pulse b)) || negb (has (events b)))
       (buckets_of vloop).

Definition required_keys : list string :=
  ["slots"; "loopLength"; "currentPulse"; "isRecording"; "isPlaying";
   "pulse"; "events"].

(** ** Sample snapshots *)

Definition ev (s d1 d2 : Z) : MidiEvent := mkMidiEvent (Some s) (Some d1) (Some d2).

Definition bk (p : Z) (evs : list MidiEvent) : Bucket := mkBucket (Some p) (Some evs).

(** A looper that never received a clock edge. *)
Definition idle_slot : Slot :=
  mkSlot (Some "VLOP") (Some 16) (Some 0) (Some false) (Some false)
    (Some (mkCounters (Some 0) (Some 0) (Some 0) (Some 0) (Some 0) None))
    (Some []).

Definition idle_snapshot : Snapshot := mkSnapshot (Some [idle_slot]).

(** A document with two slots, neither of them the looper. *)
Definition other_snapshot : Snapshot :=
  mkSnapshot (Some [ mkSlot (Some "DLAY") None None None None None None;
                     mkSlot None (Some 4) None None None None None ]).

(** A looper that crashed at pulse 50 of a 64-pulse loop. *)
Definition sample_slot : Slot :=
  mkSlot (Some "VLOP") (Some 64) (Some 50) (Some true) (Some false)
    (Some (mkCounters (Some 1000) (Some 20) (Some 12345) (Some 7) (Some 49)
             (Some (ev 0x90 60 100))))
    (Some [ bk 48 [ev 0x90 60 100];
            bk 49 [ev 0x80 60 0];
            bk 50 [ev 0x81 40 0; ev 0xB2 7 127];
            bk 52 [ev 0xF8 0 0];
            bk 60 [ev 0x90 62 90; ev 0x90 64 90; ev 0x90 67 90] ]).

Definition sample_snapshot : Snapshot :=
  mkSnapshot (Some [mkSlot (Some "DLAY") None None None None None None; sample_slot]).

(** A looper with 1000 step calls over 20 clock edges of a 16-pulse loop. *)
Definition perf_slot : Slot :=
  mkSlot (Some "VLOP") (Some 16) (Some 4) (Some false) (Some true)
    (Some (mkCounters (Some 1000) (Some 20) (Some 0) (Some 0) (Some 0) None))
    (Some []).

Definition perf_snapshot : Snapshot := mkSnapshot (Some [perf_slot]).

(** A looper whose step-call counter is beyond the range of a float. *)
Definition overflow_slot : Slot :=
  mkSlot (Some "VLOP") (Some 16) (Some 4) (Some false) (Some true)
    (Some (mkCounters (Some (10 ^ 400)) (Some 1) (Some 0) (Some 0) (Some 0) None))
    (Some []).

Definition overflow_snapshot : Snapshot := mkSnapshot (Some [overflow_slot]).

(** A looper slot with nothing but its tag and the four playback fields. *)
Definition bare_slot (l p : Z) (r q : bool) : Slot :=
  mkSlot (Some "VLOP") (Some l) (Some p) (Some r) (Some q) None None.

(** A looper slot whose second bucket has no [events]. *)
Definition broken_snapshot : Snapshot :=
  mkSnapshot (Some [ mkSlot (Some "VLOP") (Some 16) (Some 3) (Some false) (Some true)
                       None
                       (Some [bk 3 [ev 0x90 60 100]; mkBucket (Some 4) None]) ]).

(** ** Further readings of the script *)

(** Every key that the script reads with [d[key]]. *)
Definition read_keys : list string :=
  ["slots"; "loopLength"; "currentPulse"; "isRecording"; "isPlaying";
   "pulse"; "events"; "status"; "data1"; "data2"].

(** The exceptions that the script can end in: a missing key among those it
    reads, or a quotient too large for a float. *)
Definition foreseen (e : exn) : Prop :=
  match e with
  | KeyError key => In key read_keys
  | OverflowError => True
  | ValueError | ZeroDivisionError => False
  end.

(** No condition on what is printed. *)
Definition any_line (l : string) : Prop := True.

(** The section headers of a report, in the order in which they were
    printed. *)
Definition headers_of (out : list string) : list string := filter is_header out.

(** The decode as a table over the values of the status byte. *)
Definition decode_byte (status d1 d2 : Z) : string :=
  if (0x80 <=? status) && (status <=? 0x8F) then
    "Note Off ch" ++ str (status - 0x7F) ++ ": note=" ++ str d1 ++ " vel=" ++ str d2
  else if (0x90 <=? status) && (status <=? 0x9F) then
    "Note On ch" ++ str (status - 0x8F) ++ ": note=" ++ str d1 ++ " vel=" ++ str d2
  else if (0xB0 <=? status) && (status <=? 0xBF) then
    "CC ch" ++ str (status - 0xAF) ++ ": cc=" ++ str d1 ++ " val=" ++ str d2
  else
    "Status=" ++ hex status ++ " data1=" ++ str d1 ++ " data2=" ++ str d2.

(** ** Further sample snapshots and readings *)

(** A looper whose crash-point bucket holds an event without [data2], and
    whose other bucket holds an event without any byte. *)
Definition torn_slot : Slot :=
  mkSlot (Some "VLOP") (Some 16) (Some 3) (Some false) (Some true) None
    (Some [ bk 3 [ev 0x90 60 100; mkMidiEvent (Some 0x80) (Some 60) None];
            bk 9 [mkMidiEvent None None None] ]).

Definition torn_snapshot : Snapshot := mkSnapshot (Some [torn_slot]).

(** The sample looper with its buckets stored in the opposite order. *)
Definition reversed_slot : Slot :=
  mkSlot (Some "VLOP") (Some 64) (Some 50) (Some true) (Some false)
    (debug sample_slot) (Some (rev (buckets_of sample_slot))).

Definition reversed_snapshot : Snapshot := mkSnapshot (Some [reversed_slot]).

(** A looper that played three whole loops, at twenty step calls a clock
    edge. *)
Definition whole_slot : Slot :=
  mkSlot (Some "VLOP") (Some 16) (Some 0) (Some false) (Some true)
    (Some (mkCounters (Some 960) (Some 48) None None None None)) None.

Definition whole_snapshot : Snapshot := mkSnapshot (Some [whole_slot]).

(** The string without its commas. *)
Fixpoint uncomma (s : string) : string :=
  match s with
  | EmptyString => EmptyString
  | String c rest => if Ascii.eqb c "," then uncomma rest else String c (uncomma rest)
  end.

(** The slot with another bucket sequence. *)
Definition with_buckets (vloop : Slot) (bs : list Bucket) : Slot :=
  mkSlot (guid vloop) (loopLength vloop) (currentPulse vloop) (isRecording vloop)
    (isPlaying vloop) (debug vloop) (Some bs).

(** Buckets that agree on [pulse], on the presence and the number of their
    events, and on the events themselves when stored at pulse [cp]. *)
Definition same_outline (cp : Z) (b b' : Bucket) : Prop :=
  pulse b = pulse b'
  /\ option_map (@List.length MidiEvent) (events b)
     = option_map (@List.length MidiEvent) (events b')
  /\ (pulse b = Some cp -> events b = events b').

(** The buckets of the sample looper with the events away from the crash
    pulse replaced by as many events without bytes. *)
Definition hollow_buckets : list Bucket :=
  [ bk 48 [empty_event];
    bk 49 [empty_event];
    bk 50 [ev 0x81 40 0; ev 0xB2 7 127];
    bk 52 [empty_event];
    bk 60 [empty_event; empty_event; empty_event] ].

(** * Properties *)

(** ** Runs *)

Lemma run_eta {A} (r : run A) : Run (stdout r) (outcome r) = r.
Proof. destruct r; reflexivity. Qed.

Lemma bind_Run_inr {A B} (out : list string) (a : A) (k : A -> run B) :
  bind (Run out (inr a)) k = Run (out ++ stdout (k a)) (outcome (k a)).
Proof. reflexivity. Qed.

Lemma bind_print {B} (s : string) (k : unit -> run B) :
  bind (print s) k = Run (s :: stdout (k tt)) (outcome (k tt)).
Proof. reflexivity. Qed.

Lemma bind_ret {A B} (a : A) (k : A -> run B) : bind (ret a) k = k a.
Proof. unfold bind, ret; simpl. apply run_eta. Qed.

Lemma getitem_has {A} (key : string) (field : option A) (default : A) :
  has field = true -> getitem key field = ret (get field default).
Proof. destruct field; [reflexivity | discriminate]. Qed.

Lemma has_Some {A} (field : option A) :
  has field = true -> exists v, field = Some v.
Proof. destruct field; [eauto | discriminate]. Qed.

(** ** Built-ins *)

Lemma sum_of_nat (l : list nat) (acc : Z) :
  fold_left Z.add (map Z.of_nat l) acc = acc + Z.of_nat (list_sum l).
Proof.
  revert acc; induction l as [|x l IH]; intros acc; simpl.
  - lia.
  - rewrite IH. lia.
Qed.

Lemma sum_counts (l : list nat) : sum (map Z.of_nat l) = Z.of_nat (list_sum l).
Proof. unfold sum. rewrite sum_of_nat. lia. Qed.

Lemma max_step_of_nat (a y : nat) :
  (if Z.of_nat a <? Z.of_nat y then Z.of_nat y else Z.of_nat a) = Z.of_nat (Nat.max a y).
Proof.
  destruct (Z.ltb_spec (Z.of_nat a) (Z.of_nat y)).
  - rewrite Nat.max_r by lia. reflexivity.
  - rewrite Nat.max_l by lia. reflexivity.
Qed.

Lemma max_of_nat (l : list nat) (a : nat) :
  fold_left (fun m y => if m <? y then y else m) (map Z.of_nat l) (Z.of_nat a)
  = Z.of_nat (Nat.max a (list_max l)).
Proof.
  revert a; induction l as [|y l IH]; intros a; simpl.
  - rewrite Nat.max_0_r. reflexivity.
  - rewrite max_step_of_nat, IH, Nat.max_assoc. reflexivity.
Qed.

Lemma py_max_counts (x : nat) (l : list nat) :
  py_max (map Z.of_nat (x :: l)) = ret (Z.of_nat (list_max (x :: l))).
Proof. simpl. rewrite max_of_nat. reflexivity. Qed.

(** ** The loops of the report on buckets with all their keys *)

Lemma mapM_pulse (bs : list Bucket) :
  forallb bucket_ok bs = true ->
  mapM (fun b => getitem "pulse" (pulse b)) bs = ret (map pulse_of bs).
Proof.
  induction bs as [|b bs IH]; simpl; intros H; [reflexivity|].
  apply andb_prop in H as [Hb Hbs]. apply andb_prop in Hb as [Hp _].
  rewrite (getitem_has _ _ 0 Hp), bind_ret, (IH Hbs). reflexivity.
Qed.

Lemma mapM_counts (bs : list Bucket) :
  forallb bucket_ok bs = true ->
  mapM (fun b => evs <- getitem "events" (events b) ;; ret (len evs)) bs
  = ret (map Z.of_nat (event_counts bs)).
Proof.
  induction bs as [|b bs IH]; simpl; intros H; [reflexivity|].
  apply andb_prop in H as [Hb Hbs]. apply andb_prop in Hb as [_ He].
  rewrite (getitem_has _ _ [] He), !bind_ret, (IH Hbs). reflexivity.
Qed.

Lemma find_crash_bucket_ok (cp : Z) (bs : list Bucket) :
  forallb bucket_ok bs = true ->
  find_crash_bucket cp bs = ret (bucket_at cp bs).
Proof.
  induction bs as [|b bs IH]; simpl; intros H; [reflexivity|].
  apply andb_prop in H as [Hb Hbs]. apply andb_prop in Hb as [Hp _].
  rewrite (getitem_has _ _ 0 Hp), bind_ret. fold (pulse_of b).
  destruct (pulse_of b =? cp); [reflexivity | apply IH, Hbs].
Qed.

Lemma print_events_ok (evs : list MidiEvent) (i : nat) :
  forallb event_ok evs = true ->
  print_events (Z.of_nat i) evs
  = Run (map (fun ie => event_line (fst ie) (snd ie))
           (combine (seq i (List.length evs)) evs)) (inr tt).
Proof.
  revert i; induction evs as [|e evs IH]; simpl; intros i H; [reflexivity|].
  apply andb_prop in H as [He Hevs].
  apply andb_prop in He as [He H2]. apply andb_prop in He as [Hs H1].
  rewrite (getitem_has _ _ 0 Hs), bind_ret, (getitem_has _ _ 0 H1), bind_ret,
    (getitem_has _ _ 0 H2), bind_ret, bind_print.
  replace (Z.of_nat i + 1) with (Z.of_nat (S i)) by lia.
  rewrite (IH (S i) Hevs). simpl. unfold event_line at 1, decode.
  replace (Z.of_nat i =? 0) with (Nat.eqb i 0); [reflexivity|].
  destruct i; reflexivity.
Qed.

Lemma surrounding_loop_ok (cp : Z) (bs : list Bucket) :
  forallb bucket_ok bs = true ->
  surrounding_loop cp bs = Run (surrounding_lines cp bs) (inr tt).
Proof.
  unfold surrounding_lines.
  induction bs as [|b bs IH]; simpl; intros H; [reflexivity|].
  apply andb_prop in H as [Hb Hbs]. apply andb_prop in Hb as [Hp He].
  rewrite (getitem_has _ _ 0 Hp), bind_ret. fold (pulse_of b). unfold in_window at 1.
  destruct ((cp - 3 <=? pulse_of b) && (pulse_of b <=? cp + 3)).
  - rewrite (getitem_has _ _ [] He), !bind_ret, bind_print, (IH Hbs). reflexivity.
  - rewrite bind_ret. apply IH, Hbs.
Qed.

(** ** The sections of the report *)

Lemma playback_state_ok (vloop : Slot) (l p : Z) (r q : bool) :
  loopLength vloop = Some l -> currentPulse vloop = Some p ->
  isRecording vloop = Some r -> isPlaying vloop = Some q ->
  playback_state vloop
  = Run [ playback_header;
          "Loop Length:    " ++ str l ++ " pulses";
          "Current Pulse:  " ++ str p ++ " <-- CRASHED HERE";
          "Is Recording:   " ++ str_bool r;
          "Is Playing:     " ++ str_bool q ] (inr tt).
Proof.
  intros Hl Hp Hr Hq. unfold playback_state. rewrite Hl, Hp, Hr, Hq. reflexivity.
Qed.

Lemma debug_counters_ok (d : Counters) :
  debug_counters d
  = Run [ counters_header;
          "Total step() calls:     " ++ format_comma (get (stepCallCount d) 0);
          "Total clock edges:      " ++ format_comma (get (totalClockEdges d) 0);
          "Total MIDI received:    " ++ format_comma (get (totalMidiReceived d) 0);
          "Total MIDI sent:        " ++ format_comma (get (totalMidiSent d) 0) ] (inr tt).
Proof. reflexivity. Qed.

(** The decode of the last message sent prints the same description as the
    decode of a stored event. *)
Lemma last_midi_sent_ok (d : Counters) :
  last_midi_sent d
  = Run [ nl ++ "Last MIDI sent at pulse " ++ str (get (lastPulseWithMidi d) 0) ++ ":";
          "  " ++ decode (get (lastMidiSent d) empty_event) ] (inr tt).
Proof.
  unfold last_midi_sent, decode, event_msg.
  set (m := get (lastMidiSent d) empty_event).
  rewrite bind_print.
  destruct (Z.land (get (status m) 0) 240 =? 144); [reflexivity|].
  destruct (Z.land (get (status m) 0) 240 =? 128); [reflexivity|].
  destruct (Z.land (get (status m) 0) 240 =? 176); reflexivity.
Qed.

Lemma bucket_analysis_ok (vloop : Slot) (l : Z) (bs : list Bucket) :
  loopLength vloop = Some l -> forallb bucket_ok bs = true ->
  bucket_analysis vloop bs = Run (bucket_header :: bucket_lines l bs) (inr tt).
Proof.
  intros Hl Hbs. unfold bucket_analysis, bucket_lines.
  rewrite Hl, bind_print. simpl getitem. rewrite bind_ret, bind_print.
  rewrite (mapM_pulse _ Hbs), bind_ret, (mapM_counts _ Hbs), bind_ret.
  rewrite sum_counts.
  destruct bs as [|b bs'].
  - reflexivity.
  - rewrite bind_ret.
    change (event_counts (b :: bs'))
      with (List.length (events_of b) :: event_counts bs') at 1.
    rewrite py_max_counts, bind_ret. reflexivity.
Qed.

Lemma crash_point_ok (cp : Z) (bs : list Bucket) :
  forallb bucket_ok bs = true ->
  match bucket_at cp bs with
  | Some b => forallb event_ok (events_of b) = true
  | None => True
  end ->
  crash_point cp bs = Run (crash_header cp :: crash_lines cp bs) (inr tt).
Proof.
  intros Hbs Hev. unfold crash_point, crash_lines.
  rewrite bind_print, (find_crash_bucket_ok _ _ Hbs), bind_ret.
  destruct (bucket_at cp bs) as [b|] eqn:Hb; [|reflexivity].
  assert (Hin : bucket_ok b = true).
  { apply find_some in Hb as [Hin _].
    rewrite forallb_forall in Hbs. apply Hbs, Hin. }
  apply andb_prop in Hin as [_ He].
  rewrite (getitem_has _ _ [] He), bind_ret, bind_print. fold (events_of b).
  pose proof (print_events_ok _ 0%nat Hev) as Hpe.
  change (Z.of_nat 0) with 0 in Hpe. rewrite Hpe. reflexivity.
Qed.

Lemma surrounding_buckets_ok (cp : Z) (bs : list Bucket) :
  forallb bucket_ok bs = true ->
  surrounding_buckets cp bs
  = Run (surrounding_header :: surrounding_lines cp bs) (inr tt).
Proof.
  intros Hbs. unfold surrounding_buckets.
  rewrite bind_print, (surrounding_loop_ok _ _ Hbs). reflexivity.
Qed.

(** ** The report on a slot with all its keys *)

Lemma analyze_crash_ok (data : Snapshot) (vloop : Slot) :
  vloop_of data = Some vloop -> slot_ok vloop = true ->
  analyze_crash data
  = Run (report_head vloop
         ++ (bucket_header :: bucket_lines (loop_length_of vloop) (buckets_of vloop))
         ++ (crash_header (crash_pulse_of vloop)
               :: crash_lines (crash_pulse_of vloop) (buckets_of vloop))
         ++ (surrounding_header
               :: surrounding_lines (crash_pulse_of vloop) (buckets_of vloop))
         ++ stdout (performance_stats vloop (debug_of vloop)))%list
        (outcome (performance_stats vloop (debug_of vloop))).
Proof.
  unfold vloop_of, slot_ok, analyze_crash. intros Hv Hok.
  destruct (slots data) as [sl|]; [|discriminate].
  simpl getitem. rewrite bind_ret, Hv.
  repeat (apply andb_prop in Hok as [Hok ?]).
  destruct (has_Some _ Hok) as [l Hl]. destruct (has_Some _ H3) as [p Hp].
  destruct (has_Some _ H2) as [r Hr]. destruct (has_Some _ H1) as [q Hq].
  rewrite !bind_print, (playback_state_ok _ _ _ _ _ Hl Hp Hr Hq), bind_Run_inr.
  fold (debug_of vloop). fold (buckets_of vloop).
  rewrite debug_counters_ok, bind_Run_inr, last_midi_sent_ok, bind_Run_inr.
  rewrite (bucket_analysis_ok _ _ _ Hl H0), bind_Run_inr.
  unfold report_head. unfold crash_pulse_of, loop_length_of in *.
  rewrite Hl, Hp, Hr, Hq in *. simpl getitem. rewrite bind_ret.
  simpl get in *.
  assert (Hev : match bucket_at p (buckets_of vloop) with
                | Some b => forallb event_ok (events_of b) = true
                | None => True
                end).
  { destruct (bucket_at p (buckets_of vloop)); [assumption | exact I]. }
  rewrite (crash_point_ok _ _ H0 Hev), bind_Run_inr.
  rewrite (surrounding_buckets_ok _ _ H0), bind_Run_inr.
  cbn [stdout outcome app]. reflexivity.
Qed.

(** ** Reading sections off the output *)

Lemma plain_not_header (l : string) : plain l -> is_header l = false.
Proof.
  unfold plain, is_header, nl. destruct l as [|c l]; [reflexivity|].
  cbn [starts_with append].
  destruct (Ascii.eqb "010" c); cbn [andb]; [intros H; discriminate H | reflexivity].
Qed.

Lemma plain_neq (l h : string) :
  plain l -> starts_with nl h = true -> String.eqb l h = false.
Proof.
  unfold plain. intros Hl Hh. destruct (String.eqb_spec l h); [|reflexivity].
  subst. congruence.
Qed.

Lemma section_of_skip (h : string) (pre rest : list string) :
  Forall (fun l => String.eqb l h = false) pre ->
  section_of h (pre ++ rest) = section_of h rest.
Proof.
  induction 1 as [|l pre Hl _ IH]; simpl; [reflexivity|]. rewrite Hl. exact IH.
Qed.

Lemma section_of_here (h : string) (rest : list string) :
  section_of h (h :: rest) = Some (section_body rest).
Proof. simpl. rewrite String.eqb_refl. reflexivity. Qed.

Lemma section_body_app (body rest : list string) :
  Forall plain body ->
  section_body (body ++ rest) = (body ++ section_body rest)%list.
Proof.
  induction 1 as [|l body Hl _ IH]; simpl; [reflexivity|].
  rewrite (plain_not_header _ Hl), IH. reflexivity.
Qed.

Lemma section_body_plain (body : list string) :
  Forall plain body -> section_body body = body.
Proof.
  intros H. rewrite <- (app_nil_r body) at 1.
  rewrite (section_body_app _ _ H). apply app_nil_r.
Qed.

Lemma section_body_stop (h : string) (body rest : list string) :
  Forall plain body -> is_header h = true ->
  section_body (body ++ h :: rest) = body.
Proof.
  intros Hb Hh. rewrite (section_body_app _ _ Hb). simpl. rewrite Hh.
  apply app_nil_r.
Qed.

Lemma Forall_plain_neq (h : string) (ls : list string) :
  starts_with nl h = true -> Forall plain ls ->
  Forall (fun l => String.eqb l h = false) ls.
Proof.
  intros Hh. apply Forall_impl. intros l Hl. apply plain_neq; assumption.
Qed.

Lemma bucket_lines_plain (l : Z) (bs : list Bucket) : Forall plain (bucket_lines l bs).
Proof. repeat constructor. Qed.

Lemma event_lines_plain (evs : list MidiEvent) : Forall plain (event_lines evs).
Proof.
  unfold event_lines. apply Forall_forall. intros l Hl.
  apply in_map_iff in Hl as [[i e] [<- _]]. reflexivity.
Qed.

Lemma crash_lines_plain (cp : Z) (bs : list Bucket) : Forall plain (crash_lines cp bs).
Proof.
  unfold crash_lines. destruct (bucket_at cp bs).
  - constructor; [reflexivity | apply event_lines_plain].
  - repeat constructor.
Qed.

Lemma surrounding_lines_plain (cp : Z) (bs : list Bucket) :
  Forall plain (surrounding_lines cp bs).
Proof.
  unfold surrounding_lines. apply Forall_forall. intros l Hl.
  apply in_map_iff in Hl as [b [<- _]]. reflexivity.
Qed.

(** ** The performance section *)

Lemma true_divide_cases (a b : Z) :
  b <> 0 ->
  true_divide a b = raise OverflowError \/ exists q, true_divide a b = ret q.
Proof.
  intros Hb. unfold true_divide.
  destruct (Z.eqb_spec b 0) as [|_]; [contradiction|].
  repeat match goal with
         | |- context [if ?c then _ else _] => destruct c
         end; eauto.
Qed.

(** The divisor of the first division: the guard read [totalClockEdges] with
    default 0, the division reads it with default 1. *)
Lemma clock_edges_guard (d : Counters) :
  (0 <? get (totalClockEdges d) 0) = true ->
  get (totalClockEdges d) 1 = get (totalClockEdges d) 0
  /\ 0 < get (totalClockEdges d) 0.
Proof.
  destruct (totalClockEdges d); simpl; intros H.
  - split; [reflexivity | apply Z.ltb_lt, H].
  - discriminate.
Qed.

(** The performance section always opens with its header; what follows are
    plain lines. *)
Lemma performance_stats_shape (vloop : Slot) (d : Counters) :
  exists body, stdout (performance_stats vloop d) = perf_header :: body
               /\ Forall plain body.
Proof.
  unfold performance_stats. rewrite bind_print. cbn [stdout].
  eexists; split; [reflexivity|].
  destruct (0 <? get (totalClockEdges d) 0) eqn:Hg; [|constructor].
  destruct (clock_edges_guard _ Hg) as [He Hpos].
  destruct (true_divide_cases (get (stepCallCount d) 0) (get (totalClockEdges d) 1))
    as [-> | [q1 ->]]; [lia | constructor |].
  rewrite bind_ret, bind_print. cbn [stdout].
  constructor; [reflexivity|].
  destruct (loopLength vloop) as [l|]; [|constructor].
  simpl getitem. rewrite bind_ret.
  destruct (Z.ltb_spec 0 l); [|constructor].
  destruct (true_divide_cases (get (totalClockEdges d) 0) l)
    as [-> | [q2 ->]]; [lia | constructor |].
  rewrite bind_ret. repeat constructor.
Qed.

Lemma performance_stats_idle (vloop : Slot) (d : Counters) :
  get (totalClockEdges d) 0 <= 0 ->
  performance_stats vloop d = Run [perf_header] (inr tt).
Proof.
  intros H. unfold performance_stats.
  destruct (Z.ltb_spec 0 (get (totalClockEdges d) 0)); [lia | reflexivity].
Qed.

Lemma performance_stats_run (vloop : Slot) (d : Counters) (l : Z) (q1 : pyfloat) :
  0 < get (totalClockEdges d) 0 ->
  loopLength vloop = Some l ->
  true_divide (get (stepCallCount d) 0) (get (totalClockEdges d) 0) = ret q1 ->
  performance_stats vloop d
  = bind (print perf_header) (fun _ =>
      bind (print ("Avg step() calls per clock: " ++ format_f 1 q1)) (fun _ =>
        if 0 <? l then
          loops_played <- true_divide (get (totalClockEdges d) 0) l ;;
          print ("Loops played before crash: " ++ format_f 2 loops_played)
        else ret tt)).
Proof.
  intros Hpos Hl Hq. unfold performance_stats.
  assert (Hg : (0 <? get (totalClockEdges d) 0) = true) by (apply Z.ltb_lt, Hpos).
  rewrite Hg. destruct (clock_edges_guard _ Hg) as [-> _].
  rewrite Hq, bind_ret, Hl. simpl getitem.
  f_equal.
Qed.

(** ** Division and rounding *)

Lemma rne_near (n d : Z) : 0 < d -> 2 * Z.abs (rne n d * d - n) <= d.
Proof.
  intros Hd. unfold rne.
  pose proof (Z.div_mod n d ltac:(lia)) as Hdm.
  pose proof (Z.mod_pos_bound n d Hd) as Hr.
  destruct (Z.ltb_spec (2 * (n mod d)) d).
  - nia.
  - destruct (Z.ltb_spec d (2 * (n mod d))).
    + nia.
    + destruct (Z.even (n / d)); nia.
Qed.

Lemma rne_small (x p : Z) : 0 <= x -> 2 * x < p -> rne x p = 0.
Proof.
  intros Hx Hp. unfold rne.
  rewrite Z.div_small, Z.mod_small by lia.
  destruct (Z.ltb_spec (2 * x) p); [reflexivity | lia].
Qed.

Lemma quotient_exp_le (n d : Z) :
  0 < n -> 0 < d -> scaled_le d (quotient_exp n d) n = true.
Proof.
  intros Hn Hd. unfold quotient_exp.
  destruct (scaled_le d (Z.log2 n - Z.log2 d) n) eqn:Hk; [exact Hk|].
  clear Hk.
  destruct (Z.log2_spec n Hn) as [Hn1 Hn2].
  destruct (Z.log2_spec d Hd) as [Hd1 Hd2].
  pose proof (Z.log2_nonneg n) as Hln. pose proof (Z.log2_nonneg d) as Hld.
  set (ln := Z.log2 n) in *. set (ld := Z.log2 d) in *.
  unfold scaled_le.
  destruct (Z.leb_spec 0 (ln - ld - 1)).
  - apply Z.leb_le.
    replace ln with ((ld + 1) + (ln - ld - 1)) in Hn1 by lia.
    rewrite Z.pow_add_r in Hn1 by lia.
    replace (Z.succ ld) with (ld + 1) in Hd2 by lia.
    assert (0 < 2 ^ (ln - ld - 1)) by (apply Z.pow_pos_nonneg; lia).
    nia.
  - apply Z.leb_le.
    replace (Z.succ ld) with (ln + (- (ln - ld - 1))) in Hd2 by lia.
    rewrite Z.pow_add_r in Hd2 by lia.
    assert (0 < 2 ^ (- (ln - ld - 1))) by (apply Z.pow_pos_nonneg; lia).
    nia.
Qed.

Lemma quotient_exp_gt (n d : Z) :
  0 < n -> 0 < d -> scaled_le d (quotient_exp n d + 1) n = false.
Proof.
  intros Hn Hd. unfold quotient_exp.
  destruct (scaled_le d (Z.log2 n - Z.log2 d) n) eqn:Hk.
  2:{ replace (Z.log2 n - Z.log2 d - 1 + 1) with (Z.log2 n - Z.log2 d) by lia.
      exact Hk. }
  clear Hk.
  destruct (Z.log2_spec n Hn) as [Hn1 Hn2].
  destruct (Z.log2_spec d Hd) as [Hd1 Hd2].
  pose proof (Z.log2_nonneg n) as Hln. pose proof (Z.log2_nonneg d) as Hld.
  set (ln := Z.log2 n) in *. set (ld := Z.log2 d) in *.
  unfold scaled_le.
  destruct (Z.leb_spec 0 (ln - ld + 1)).
  - apply Z.leb_gt.
    replace (Z.succ ln) with (ld + (ln - ld + 1)) in Hn2 by lia.
    rewrite Z.pow_add_r in Hn2 by lia.
    assert (0 < 2 ^ (ln - ld + 1)) by (apply Z.pow_pos_nonneg; lia).
    nia.
  - apply Z.leb_gt.
    replace ld with (Z.succ ln + (- (ln - ld + 1))) in Hd1 by lia.
    rewrite Z.pow_add_r in Hd1 by lia.
    assert (0 < 2 ^ (- (ln - ld + 1))) by (apply Z.pow_pos_nonneg; lia).
    nia.
Qed.

(** Below the normal range the quotient is less than [2^-1022]. *)
Lemma tiny_quotient (n d : Z) :
  0 < n -> 0 < d -> quotient_exp n d - 52 < -1074 -> n * 2 ^ 1022 < d.
Proof.
  intros Hn Hd He.
  pose proof (quotient_exp_gt n d Hn Hd) as H. unfold scaled_le in H.
  set (e2 := quotient_exp n d) in *.
  destruct (Z.leb_spec 0 (e2 + 1)); [lia|].
  apply Z.leb_gt in H.
  replace (- (e2 + 1)) with (1022 + (- (e2 + 1) - 1022)) in H by lia.
  rewrite Z.pow_add_r in H by lia.
  assert (0 < 2 ^ (- (e2 + 1) - 1022)) by (apply Z.pow_pos_nonneg; lia).
  assert (0 < 2 ^ 1022) by (apply Z.pow_pos_nonneg; lia).
  nia.
Qed.

Lemma quotient_exp_bounds (n d : Z) :
  Z.log2 n - Z.log2 d - 1 <= quotient_exp n d <= Z.log2 n - Z.log2 d.
Proof. unfold quotient_exp. destruct (scaled_le _ _ _); lia. Qed.

Lemma normal_pos (n d e : Z) :
  0 <= e -> scaled_le d (e + 52) n = true -> d * 2 ^ e * 2 ^ 52 <= n.
Proof.
  intros He H. unfold scaled_le in H.
  destruct (Z.leb_spec 0 (e + 52)); [|lia].
  apply Z.leb_le in H. rewrite Z.pow_add_r in H by lia. lia.
Qed.

Lemma normal_neg (n d e : Z) :
  0 < n -> 0 < d -> e < 0 -> scaled_le d (e + 52) n = true ->
  d * 2 ^ 52 <= n * 2 ^ (- e).
Proof.
  intros Hn Hd He H. unfold scaled_le in H.
  destruct (Z.leb_spec 0 (e + 52)); apply Z.leb_le in H.
  - replace 52 with ((e + 52) + (- e)) at 1 by lia.
    rewrite Z.pow_add_r by lia.
    assert (0 < 2 ^ (- e)) by (apply Z.pow_pos_nonneg; lia). nia.
  - replace (- e) with (52 + - (e + 52)) by lia.
    rewrite Z.pow_add_r by lia. nia.
Qed.

Lemma accuracy_pos (n d e s : Z) :
  0 < n -> 0 < d -> 0 <= e -> 0 < s ->
  d * 2 ^ e * 2 ^ 52 <= n ->
  2 ^ 53 * Z.abs (rne n (d * 2 ^ e) * 2 ^ e * s * d - s * n) <= 2 ^ 52 * d + s * n.
Proof.
  intros Hn Hd He Hs Hnorm.
  assert (HQ : 0 < 2 ^ e) by (apply Z.pow_pos_nonneg; lia).
  pose proof (rne_near n (d * 2 ^ e) ltac:(nia)) as Hm.
  set (Q := 2 ^ e) in *. set (m := rne n (d * Q)) in *.
  replace (m * Q * s * d - s * n) with (s * (m * (d * Q) - n)) by ring.
  rewrite Z.abs_mul, (Z.abs_eq s) by lia.
  change (2 ^ 53) with (2 * 2 ^ 52). change (2 ^ 52) with 4503599627370496 in *.
  nia.
Qed.

Lemma accuracy_neg (n d e s : Z) :
  0 < n -> 0 < d -> e < 0 -> 0 < s ->
  d * 2 ^ 52 <= n * 2 ^ (- e) ->
  2 ^ 53 * Z.abs (rne (rne (n * 2 ^ (- e)) d * s) (2 ^ (- e)) * d - s * n)
  <= 2 ^ 52 * d + s * n.
Proof.
  intros Hn Hd He Hs Hnorm.
  assert (HP : 0 < 2 ^ (- e)) by (apply Z.pow_pos_nonneg; lia).
  set (P := 2 ^ (- e)) in *.
  pose proof (rne_near (n * P) d Hd) as Hm.
  set (m := rne (n * P) d) in *.
  pose proof (rne_near (m * s) P HP) as Ht.
  set (t := rne (m * s) P) in *.
  change (2 ^ 53) with (2 * 2 ^ 52). change (2 ^ 52) with 4503599627370496 in *.
  assert (H1 : P * Z.abs (t * d - s * n)
               <= Z.abs (t * P - m * s) * d + s * Z.abs (m * d - n * P)).
  { replace (P * Z.abs (t * d - s * n))
      with (Z.abs ((t * P - m * s) * d + s * (m * d - n * P))).
    2:{ transitivity (Z.abs (P * (t * d - s * n))); [f_equal; ring|].
        rewrite Z.abs_mul, (Z.abs_eq P) by lia. reflexivity. }
    eapply Z.le_trans; [apply Z.abs_triangle|].
    rewrite !Z.abs_mul, (Z.abs_eq d), (Z.abs_eq s) by lia. lia. }
  assert (H2 : 2 * P * Z.abs (t * d - s * n) <= P * d + s * d) by nia.
  assert (H3 : 2 * 4503599627370496 * P * Z.abs (t * d - s * n)
               <= P * (4503599627370496 * d + s * n)) by nia.
  apply Z.mul_le_mono_pos_l with (p := P); [lia|]. lia.
Qed.

Lemma accuracy_tiny (n d s : Z) :
  0 < n -> 0 < d -> 0 < s -> s * 2 ^ 53 <= 2 ^ 1022 ->
  n * 2 ^ 1022 < d ->
  2 ^ 53 * Z.abs (rne (rne (n * 2 ^ 1074) d * s) (2 ^ 1074) * d - s * n)
  <= 2 ^ 52 * d + s * n.
Proof.
  intros Hn Hd Hs Hsmall Htiny.
  change (2 ^ 1074) with (2 ^ 1022 * 2 ^ 52).
  change (2 ^ 53) with (2 * 2 ^ 52) in *.
  assert (HA : 0 < 2 ^ 1022) by (apply Z.pow_pos_nonneg; lia).
  assert (HB : 1 < 2 ^ 52) by reflexivity.
  set (A := 2 ^ 1022) in *. set (B := 2 ^ 52) in *.
  pose proof (rne_near (n * (A * B)) d Hd) as Hm.
  set (m := rne (n * (A * B)) d) in *.
  assert (Hm0 : 0 <= m).
  { unfold m, rne.
    assert (0 <= n * (A * B) / d) by (apply Z.div_pos; nia).
    repeat match goal with |- context [if ?c then _ else _] => destruct c end; lia. }
  assert (HmB : m <= B) by nia.
  rewrite rne_small; [| nia | nia].
  rewrite Z.mul_0_l, Z.sub_0_l, Z.abs_opp, Z.abs_eq by nia.
  nia.
Qed.

Lemma decimals_fit (prec : nat) :
  (prec <= 290)%nat -> 10 ^ Z.of_nat prec * 2 ^ 53 <= 2 ^ 1022.
Proof.
  intros H.
  assert (H1 : 10 ^ Z.of_nat prec <= 10 ^ 290) by (apply Z.pow_le_mono_r; lia).
  assert (H2 : 10 ^ 290 * 2 ^ 53 <= 2 ^ 1022) by (apply Z.leb_le; vm_compute; reflexivity).
  assert (H3 : 0 < 2 ^ 53) by reflexivity.
  apply Z.le_trans with (10 ^ 290 * 2 ^ 53); [|exact H2].
  apply Z.mul_le_mono_nonneg_r; [apply Z.lt_le_incl, H3 | exact H1].
Qed.

(** Quotients of ints below [2^1023] in absolute value do not overflow. *)
Lemma true_divide_returns (a b : Z) :
  b <> 0 -> Z.abs a < 2 ^ 1023 -> exists q, true_divide a b = ret q.
Proof.
  intros Hb Ha. unfold true_divide.
  destruct (Z.eqb_spec b 0) as [|_]; [contradiction|].
  destruct (Z.eqb_spec (Z.abs a) 0) as [|Hn]; [eauto|].
  pose proof (quotient_exp_bounds (Z.abs a) (Z.abs b)) as He.
  pose proof (Z.log2_nonneg (Z.abs b)) as Hld.
  assert (Hln : Z.log2 (Z.abs a) < 1023) by (apply Z.log2_lt_pow2; lia).
  set (e := Z.max (quotient_exp (Z.abs a) (Z.abs b) - 52) (-1074)).
  assert (Hle : e <= 970) by (unfold e; lia).
  destruct (Z.ltb_spec 971 e); [lia|].
  destruct (Z.eqb_spec e 971); [lia|]. simpl. eauto.
Qed.

(** The rounded decimal that is printed for [a / b]: it differs from the exact
    quotient by at most half a unit of the last printed decimal plus the
    relative error [2^-53] of the binary64 quotient.  With [t] the printed
    value scaled by [10^prec], this is
    [|t / 10^prec - |a| / |b|| <= 1 / (2 * 10^prec) + (|a| / |b|) / 2^53]. *)
Lemma true_divide_accuracy (prec : nat) (a b : Z) (q : pyfloat) :
  (prec <= 290)%nat ->
  true_divide a b = ret q ->
  2 ^ 53 * Z.abs (scaled prec q * Z.abs b - 10 ^ Z.of_nat prec * Z.abs a)
  <= 2 ^ 52 * Z.abs b + 10 ^ Z.of_nat prec * Z.abs a.
Proof.
  intros Hprec. unfold true_divide.
  destruct (Z.eqb_spec b 0) as [|Hb]; [discriminate|].
  assert (Hs : 0 < 10 ^ Z.of_nat prec) by (apply Z.pow_pos_nonneg; lia).
  pose proof (decimals_fit prec Hprec) as Hfit.
  set (s := 10 ^ Z.of_nat prec) in *.
  destruct (Z.eqb_spec (Z.abs a) 0) as [Hn0|Hn].
  - intros [= <-].
    change (scaled prec (Float (xorb (a <? 0) (b <? 0)) 0 0)) with 0.
    rewrite Hn0, Z.mul_0_r. simpl Z.abs. lia.
  - set (n := Z.abs a) in *. set (d := Z.abs b) in *.
    assert (Hn' : 0 < n) by (unfold n; lia).
    assert (Hd' : 0 < d) by (unfold d; lia).
    pose proof (quotient_exp_le n d Hn' Hd') as Hle.
    pose proof (tiny_quotient n d Hn' Hd') as Htiny.
    set (e2 := quotient_exp n d) in *.
    destruct (Z.max_spec (e2 - 52) (-1074)) as [[Hlt ->] | [Hge ->]].
    + destruct ((971 <? -1074) || ((-1074 =? 971) && _)); [discriminate|].
      intros [= <-]. unfold scaled. cbn [f_exp f_mant]. fold s.
      change (0 <=? -1074) with false. cbv iota.
      change (- -1074) with 1074.
      apply accuracy_tiny; try assumption. apply Htiny. lia.
    + set (e := e2 - 52) in *.
      replace e2 with (e + 52) in Hle by (unfold e; lia).
      destruct ((971 <? e) || ((e =? 971) && _)); [discriminate|].
      intros [= <-]. unfold scaled. cbn [f_exp f_mant]. fold s.
      destruct (Z.leb_spec 0 e).
      * apply accuracy_pos; try assumption. apply normal_pos; assumption.
      * apply accuracy_neg; try assumption. apply normal_neg; assumption.
Qed.

(** A quotient with at most [prec] decimals, [|a| / |b| = t / 10^prec] with
    [t < 2^52], is printed exactly. *)
Lemma true_divide_exact (prec : nat) (a b t : Z) (q : pyfloat) :
  (prec <= 290)%nat -> 0 <= t < 2 ^ 52 ->
  10 ^ Z.of_nat prec * Z.abs a = t * Z.abs b ->
  true_divide a b = ret q ->
  scaled prec q = t.
Proof.
  intros Hprec Ht Heq Hq.
  assert (Hb : b <> 0).
  { intros ->. unfold true_divide in Hq. discriminate Hq. }
  pose proof (true_divide_accuracy prec a b q Hprec Hq) as Hacc.
  rewrite Heq in Hacc.
  replace (scaled prec q * Z.abs b - t * Z.abs b)
    with ((scaled prec q - t) * Z.abs b) in Hacc by ring.
  rewrite Z.abs_mul, (Z.abs_eq (Z.abs b)) in Hacc by lia.
  change (2 ^ 53) with (2 * 2 ^ 52) in Hacc.
  change (2 ^ 52) with 4503599627370496 in *.
  assert (0 < Z.abs b) by lia.
  assert (Z.abs (scaled prec q - t) < 1) by nia.
  lia.
Qed.

(** ** The sections of a complete report *)

Ltac distinct_lines := repeat constructor.

Lemma report_head_no_bucket_header (vloop : Slot) :
  Forall (fun l => String.eqb l bucket_header = false) (report_head vloop).
Proof. distinct_lines. Qed.

Lemma report_head_no_crash_header (vloop : Slot) (cp : Z) :
  Forall (fun l => String.eqb l (crash_header cp) = false) (report_head vloop).
Proof. distinct_lines. Qed.

Lemma report_head_no_surrounding_header (vloop : Slot) :
  Forall (fun l => String.eqb l surrounding_header = false) (report_head vloop).
Proof. distinct_lines. Qed.

Lemma report_head_no_perf_header (vloop : Slot) :
  Forall (fun l => String.eqb l perf_header = false) (report_head vloop).
Proof. distinct_lines. Qed.

Section Sections.

Variables (data : Snapshot) (vloop : Slot).
Hypothesis Hfound : vloop_of data = Some vloop.
Hypothesis Hok : slot_ok vloop = true.

Let out := stdout (analyze_crash data).
Let bs := buckets_of vloop.
Let cp := crash_pulse_of vloop.

Lemma bucket_section :
  section_of bucket_header out = Some (bucket_lines (loop_length_of vloop) bs).
Proof.
  unfold out. rewrite (analyze_crash_ok _ _ Hfound Hok). cbn [stdout].
  rewrite section_of_skip by apply report_head_no_bucket_header.
  rewrite <- app_comm_cons, section_of_here, <- app_comm_cons.
  rewrite (section_body_stop _ _ _ (bucket_lines_plain _ _)); reflexivity.
Qed.

Lemma crash_section :
  section_of (crash_header cp) out = Some (crash_lines cp bs).
Proof.
  unfold out. rewrite (analyze_crash_ok _ _ Hfound Hok). cbn [stdout].
  rewrite section_of_skip by apply report_head_no_crash_header.
  rewrite <- app_comm_cons.
  change (section_of (crash_header cp) (bucket_header :: ?l))
    with (section_of (crash_header cp) l).
  rewrite section_of_skip
    by (apply Forall_plain_neq; [reflexivity | apply bucket_lines_plain]).
  rewrite <- app_comm_cons, section_of_here, <- app_comm_cons.
  rewrite (section_body_stop _ _ _ (crash_lines_plain _ _)); reflexivity.
Qed.

Lemma surrounding_section :
  section_of surrounding_header out = Some (surrounding_lines cp bs).
Proof.
  unfold out. rewrite (analyze_crash_ok _ _ Hfound Hok). cbn [stdout].
  rewrite section_of_skip by apply report_head_no_surrounding_header.
  rewrite <- app_comm_cons.
  change (section_of surrounding_header (bucket_header :: ?l))
    with (section_of surrounding_header l).
  rewrite section_of_skip
    by (apply Forall_plain_neq; [reflexivity | apply bucket_lines_plain]).
  rewrite <- app_comm_cons.
  change (section_of surrounding_header (crash_header ?p :: ?l))
    with (section_of surrounding_header l).
  rewrite section_of_skip
    by (apply Forall_plain_neq; [reflexivity | apply crash_lines_plain]).
  rewrite <- app_comm_cons, section_of_here.
  destruct (performance_stats_shape vloop (debug_of vloop)) as [body [-> _]].
  rewrite (section_body_stop _ _ _ (surrounding_lines_plain _ _)); reflexivity.
Qed.

Lemma performance_section :
  section_of perf_header out
  = Some (tl (stdout (performance_stats vloop (debug_of vloop)))).
Proof.
  unfold out. rewrite (analyze_crash_ok _ _ Hfound Hok). cbn [stdout].
  rewrite section_of_skip by apply report_head_no_perf_header.
  rewrite <- app_comm_cons.
  change (section_of perf_header (bucket_header :: ?l))
    with (section_of perf_header l).
  rewrite section_of_skip
    by (apply Forall_plain_neq; [reflexivity | apply bucket_lines_plain]).
  rewrite <- app_comm_cons.
  change (section_of perf_header (crash_header ?p :: ?l))
    with (section_of perf_header l).
  rewrite section_of_skip
    by (apply Forall_plain_neq; [reflexivity | apply crash_lines_plain]).
  rewrite <- app_comm_cons.
  change (section_of perf_header (surrounding_header :: ?l))
    with (section_of perf_header l).
  rewrite section_of_skip
    by (apply Forall_plain_neq; [reflexivity | apply surrounding_lines_plain]).
  destruct (performance_stats_shape vloop (debug_of vloop)) as [body [-> Hp]].
  rewrite section_of_here. cbn [tl]. f_equal. apply section_body_plain, Hp.
Qed.

Lemma report_outcome :
  outcome (analyze_crash data) = outcome (performance_stats vloop (debug_of vloop)).
Proof. rewrite (analyze_crash_ok _ _ Hfound Hok). reflexivity. Qed.

End Sections.

(** ** Membership by computation *)

Lemma in_existsb (x : string) (l : list string) :
  existsb (String.eqb x) l = true -> In x l.
Proof.
  intros H. apply existsb_exists in H as [y [Hy He]].
  apply String.eqb_eq in He. subst. exact Hy.
Qed.

(** ** C1: the performance section without clock edges *)

(** C1, as stated, fails: for the idle looper [totalClockEdges] is 0, yet the
    header of the performance section is printed. *)
Lemma C1_header_printed_without_clock_edges :
  vloop_of idle_snapshot = Some idle_slot
  /\ get (totalClockEdges (debug_of idle_slot)) 0 = 0
  /\ In perf_header (stdout (analyze_crash idle_snapshot)).
Proof.
  split; [reflexivity|]. split; [reflexivity|].
  apply in_existsb. vm_compute. reflexivity.
Qed.

(** C1, amended: when [totalClockEdges] is 0 or absent, the performance
    section of a report is its header alone: the header is the last entry
    printed, no average and no loops-played line follows it, and the report
    returns normally. *)
Theorem C1_performance_section_without_clock_edges (data : Snapshot) (vloop : Slot) :
  vloop_of data = Some vloop -> slot_ok vloop = true ->
  get (totalClockEdges (debug_of vloop)) 0 = 0 ->
  section_of perf_header (stdout (analyze_crash data)) = Some []
  /\ last (stdout (analyze_crash data)) "" = perf_header
  /\ outcome (analyze_crash data) = inr tt.
Proof.
  intros Hfound Hok Hzero.
  assert (Hperf : performance_stats vloop (debug_of vloop) = Run [perf_header] (inr tt))
    by (apply performance_stats_idle; lia).
  split; [|split].
  - rewrite (performance_section _ _ Hfound Hok), Hperf. reflexivity.
  - rewrite (analyze_crash_ok _ _ Hfound Hok), Hperf. cbn [stdout].
    rewrite !app_assoc. apply last_last.
  - rewrite (report_outcome _ _ Hfound Hok), Hperf. reflexivity.
Qed.

Lemma C1_performance_section_without_clock_edges_witness :
  vloop_of idle_snapshot = Some idle_slot
  /\ slot_ok idle_slot = true
  /\ get (totalClockEdges (debug_of idle_slot)) 0 = 0
  /\ section_of perf_header (stdout (analyze_crash idle_snapshot)) = Some []
  /\ last (stdout (analyze_crash idle_snapshot)) "" = perf_header
  /\ outcome (analyze_crash idle_snapshot) = inr tt.
Proof.
  split; [reflexivity|]. split; [reflexivity|]. split; [reflexivity|].
  apply (C1_performance_section_without_clock_edges idle_snapshot idle_slot);
    reflexivity.
Defined.

(** ** C2: no looper slot *)

Lemma find_vloop_none (sl : list Slot) :
  Forall (fun s => guid s <> Some "VLOP") sl -> find_vloop sl = None.
Proof.
  induction 1 as [|s sl Hs _ IH]; simpl; [reflexivity|].
  destruct (guid s) as [g|]; [|exact IH].
  destruct (String.eqb_spec g "VLOP") as [->|_]; [|exact IH].
  exfalso. apply Hs. reflexivity.
Qed.

(** C2: for every snapshot whose slot sequence has no slot tagged "VLOP", the
    report is the single line "ERROR: VLoop slot not found" and the function
    returns normally. *)
Theorem C2_slot_not_found (data : Snapshot) (sl : list Slot) :
  slots data = Some sl ->
  Forall (fun s => guid s <> Some "VLOP") sl ->
  analyze_crash data = Run ["ERROR: VLoop slot not found"] (inr tt).
Proof.
  intros Hsl Hnone. unfold analyze_crash. rewrite Hsl. simpl getitem.
  rewrite bind_ret, (find_vloop_none _ Hnone). reflexivity.
Qed.

Lemma C2_slot_not_found_witness :
  slots other_snapshot
  = Some [ mkSlot (Some "DLAY") None None None None None None;
           mkSlot None (Some 4) None None None None None ]
  /\ Forall (fun s => guid s <> Some "VLOP")
       [ mkSlot (Some "DLAY") None None None None None None;
         mkSlot None (Some 4) None None None None None ]
  /\ analyze_crash other_snapshot = Run ["ERROR: VLoop slot not found"] (inr tt).
Proof.
  assert (H : Forall (fun s => guid s <> Some "VLOP")
                [ mkSlot (Some "DLAY") None None None None None None;
                  mkSlot None (Some 4) None None None None None ])
    by (repeat constructor; discriminate).
  split; [reflexivity|]. split; [exact H|].
  apply (C2_slot_not_found other_snapshot _ eq_refl H).
Defined.

(** ** C3: the MIDI status decoding rule *)

Lemma land_low (s : Z) : Z.land s 15 = s mod 16.
Proof. change 15 with (Z.ones 4). rewrite Z.land_ones by lia. reflexivity. Qed.

Lemma land_high (s : Z) : Z.land s 240 = 16 * ((s / 16) mod 16).
Proof.
  replace ((s / 16) mod 16) with (Z.land (Z.shiftr s 4) (Z.ones 4)).
  2:{ rewrite Z.land_ones, Z.shiftr_div_pow2 by lia. reflexivity. }
  replace (16 * Z.land (Z.shiftr s 4) (Z.ones 4))
    with (Z.shiftl (Z.land (Z.shiftr s 4) (Z.ones 4)) 4).
  2:{ rewrite Z.shiftl_mul_pow2 by lia. change (2 ^ 4) with 16. lia. }
  change 240 with (Z.shiftl (Z.ones 4) 4).
  apply Z.bits_inj'. intros i Hi.
  rewrite Z.land_spec.
  destruct (Z.lt_ge_cases i 4).
  - rewrite !Z.shiftl_spec_low by lia. apply andb_false_r.
  - rewrite !Z.shiftl_spec by lia. rewrite Z.land_spec, Z.shiftr_spec by lia.
    replace (i - 4 + 4) with i by lia. reflexivity.
Qed.

(** C3: for every message the decode takes [status AND 0xF0] as the message
    type and [(status AND 0x0F) + 1] as the channel, that is the high nibble
    of the status byte times 16 and its low nibble plus one, and renders Note
    On, Note Off, Control Change or the generic fallback by the type; the decode
    of the last message sent prints the same description; and the four sample
    messages render as the specification says. *)
Theorem C3_midi_decoding_rule :
  (forall status d1 d2,
      event_msg status d1 d2
      = render (Z.land status 0xF0) (Z.land status 0x0F + 1) status d1 d2
      /\ event_msg status d1 d2
         = render (16 * ((status / 16) mod 16)) (status mod 16 + 1) status d1 d2
      /\ last_midi_sent (mkCounters None None None None None (Some (ev status d1 d2)))
         = Run [ nl ++ "Last MIDI sent at pulse 0:";
                 "  " ++ event_msg status d1 d2 ] (inr tt))
  /\ event_msg 0x90 60 100 = "Note On ch1: note=60 vel=100"
  /\ event_msg 0x81 40 0 = "Note Off ch2: note=40 vel=0"
  /\ event_msg 0xB2 7 127 = "CC ch3: cc=7 val=127"
  /\ event_msg 0xF8 0 0 = "Status=0xf8 data1=0 data2=0".
Proof.
  split; [|repeat split; reflexivity].
  intros status d1 d2. split; [reflexivity|]. split.
  - rewrite <- land_high, <- land_low. reflexivity.
  - rewrite last_midi_sent_ok. reflexivity.
Qed.

(** ** C4: the crash-point section *)

Lemma append_empty_r (s : string) : s ++ "" = s.
Proof. induction s as [|c s IH]; simpl; [reflexivity | rewrite IH; reflexivity]. Qed.

Lemma section_of_In (h : string) (out body : list string) :
  section_of h out = Some body -> In h out.
Proof.
  induction out as [|l out IH]; simpl; [discriminate|].
  destruct (String.eqb_spec l h) as [->|_]; [left; reflexivity|].
  intros H. right. apply IH, H.
Qed.

(** C4: the crash-point section of a report is, when some bucket is stored at
    the crash pulse, the event count of the first such bucket followed by its
    events in stored order, each decoded by the decoding rule and only event 0
    marked as the one that would be sent next (so of two events the first is
    marked and the second is not); when no bucket is stored at the crash
    pulse it is the single line saying that the bucket is empty.  In both cases
    the report goes on with the surrounding-buckets section. *)
Theorem C4_crash_point_section (data : Snapshot) (vloop : Slot) :
  vloop_of data = Some vloop -> slot_ok vloop = true ->
  let cp := crash_pulse_of vloop in
  let bs := buckets_of vloop in
  let out := stdout (analyze_crash data) in
  section_of (crash_header cp) out
  = Some (match bucket_at cp bs with
          | Some b =>
              ("Bucket at crash has " ++ str (len (events_of b)) ++ " events:")
                :: map (fun ie => "  Event " ++ str (Z.of_nat (fst ie)) ++ ": "
                                  ++ decode (snd ie)
                                  ++ (if Nat.eqb (fst ie) 0
                                      then " <-- WOULD SEND THIS" else ""))
                     (combine (seq 0 (List.length (events_of b))) (events_of b))
          | None => ["Bucket at crash pulse is EMPTY (no events)"]
          end)
  /\ (forall b e0 e1,
         bucket_at cp bs = Some b -> events_of b = [e0; e1] ->
         section_of (crash_header cp) out
         = Some [ "Bucket at crash has 2 events:";
                  "  Event 0: " ++ decode e0 ++ " <-- WOULD SEND THIS";
                  "  Event 1: " ++ decode e1 ])
  /\ In surrounding_header out.
Proof.
  intros Hfound Hok cp bs out.
  pose proof (crash_section _ _ Hfound Hok) as Hsec. fold cp bs out in Hsec.
  split; [exact Hsec|]. split.
  - intros b e0 e1 Hb Hev. rewrite Hsec. unfold crash_lines, event_lines.
    rewrite Hb, Hev. unfold event_line. cbn [List.length seq combine map fst snd Nat.eqb].
    rewrite append_empty_r. reflexivity.
  - eapply section_of_In. apply (surrounding_section _ _ Hfound Hok).
Qed.

Lemma C4_crash_point_section_witness :
  vloop_of sample_snapshot = Some sample_slot
  /\ slot_ok sample_slot = true
  /\ section_of (crash_header 50) (stdout (analyze_crash sample_snapshot))
     = Some [ "Bucket at crash has 2 events:";
              "  Event 0: Note Off ch2: note=40 vel=0 <-- WOULD SEND THIS";
              "  Event 1: CC ch3: cc=7 val=127" ].
Proof.
  split; [reflexivity|]. split; [reflexivity|].
  destruct (C4_crash_point_section sample_snapshot sample_slot eq_refl eq_refl)
    as [_ [H _]].
  exact (H (bk 50 [ev 0x81 40 0; ev 0xB2 7 127]) _ _ eq_refl eq_refl).
Defined.

(** ** C5: the surrounding-context section *)

(** C5: the surrounding-context section lists exactly the buckets whose pulse
    lies in [currentPulse - 3, currentPulse + 3], in the order of the bucket
    sequence, one line each with the pulse and the event count, and marks the
    bucket at the crash pulse; with the crash at pulse 50 and buckets stored
    at pulses 48, 49, 50 and 52 those four are listed in that order and pulse
    50 is marked. *)
Theorem C5_surrounding_section (data : Snapshot) (vloop : Slot) :
  vloop_of data = Some vloop -> slot_ok vloop = true ->
  let cp := crash_pulse_of vloop in
  let bs := buckets_of vloop in
  section_of surrounding_header (stdout (analyze_crash data))
  = Some (map (fun b => "Pulse " ++ str (pulse_of b) ++ ": "
                        ++ str (len (events_of b)) ++ " events"
                        ++ (if pulse_of b =? cp then " <-- CRASH" else ""))
            (filter (fun b => (cp - 3 <=? pulse_of b) && (pulse_of b <=? cp + 3)) bs))
  /\ (forall e48 e49 e50 e52,
         cp = 50 ->
         bs = [bk 48 e48; bk 49 e49; bk 50 e50; bk 52 e52] ->
         section_of surrounding_header (stdout (analyze_crash data))
         = Some [ "Pulse 48: " ++ str (len e48) ++ " events";
                  "Pulse 49: " ++ str (len e49) ++ " events";
                  "Pulse 50: " ++ str (len e50) ++ " events <-- CRASH";
                  "Pulse 52: " ++ str (len e52) ++ " events" ]).
Proof.
  intros Hfound Hok cp bs.
  pose proof (surrounding_section _ _ Hfound Hok) as Hsec. fold cp bs in Hsec.
  split; [exact Hsec|].
  intros e48 e49 e50 e52 Hcp Hbs. rewrite Hsec, Hcp, Hbs.
  unfold surrounding_lines, context_line.
  cbn [filter in_window pulse_of events_of bk pulse events get map
       Z.leb Z.eqb Z.sub Z.add Z.compare Z.opp Z.pos_sub Pos.compare Pos.compare_cont
       Pos.eqb Pos.add Pos.succ Pos.pred_double Z.double Z.succ_double Z.pred_double
       andb].
  rewrite !append_empty_r. reflexivity.
Qed.

Lemma C5_surrounding_section_witness :
  vloop_of sample_snapshot = Some sample_slot
  /\ slot_ok sample_slot = true
  /\ section_of surrounding_header (stdout (analyze_crash sample_snapshot))
     = Some [ "Pulse 48: 1 events"; "Pulse 49: 1 events";
              "Pulse 50: 2 events <-- CRASH"; "Pulse 52: 1 events" ].
Proof.
  split; [reflexivity|]. split; [reflexivity|].
  destruct (C5_surrounding_section sample_snapshot sample_slot eq_refl eq_refl)
    as [H _].
  rewrite H. reflexivity.
Defined.

(** ** C6: totals of the bucket analysis *)

Lemma list_max_attained (l : list nat) :
  l <> [] -> In (list_max l) l.
Proof.
  induction l as [|x l IH]; [congruence|]. intros _.
  change (list_max (x :: l)) with (Nat.max x (list_max l)).
  destruct l as [|y l'].
  - left. simpl. rewrite Nat.max_0_r. reflexivity.
  - destruct (Nat.max_spec x (list_max (y :: l'))) as [[_ ->] | [_ ->]].
    + right. apply IH. discriminate.
    + left. reflexivity.
Qed.

Lemma list_max_upper (l : list nat) (x : nat) : In x l -> (x <= list_max l)%nat.
Proof.
  intros H. pose proof (proj1 (list_max_le l (list_max l)) (Nat.le_refl _)) as Hall.
  rewrite Forall_forall in Hall. apply Hall, H.
Qed.

(** C6: the bucket analysis reports as the total of recorded events the sum
    of the lengths of the event sequences of all buckets, and as the maximum
    per bucket the largest of these lengths: no bucket holds more events, some
    bucket holds that many when there is a bucket, and the maximum is 0 when
    there is none. *)
Theorem C6_bucket_totals (data : Snapshot) (vloop : Slot) :
  vloop_of data = Some vloop -> slot_ok vloop = true ->
  let bs := buckets_of vloop in
  let lengths := map (fun b => List.length (events_of b)) bs in
  section_of bucket_header (stdout (analyze_crash data))
  = Some [ "Non-empty buckets: " ++ str (Z.of_nat (List.length bs)) ++ "/"
             ++ str (loop_length_of vloop);
           "Total recorded events: " ++ str (Z.of_nat (list_sum lengths));
           "Max events per bucket: " ++ str (Z.of_nat (list_max lengths)) ]
  /\ (forall b, In b bs -> (List.length (events_of b) <= list_max lengths)%nat)
  /\ (bs <> [] -> exists b, In b bs /\ List.length (events_of b) = list_max lengths)
  /\ (bs = [] -> list_max lengths = 0%nat).
Proof.
  intros Hfound Hok bs lengths. split; [|split; [|split]].
  - exact (bucket_section _ _ Hfound Hok).
  - intros b Hb. apply list_max_upper. unfold lengths.
    apply in_map_iff. exists b. split; [reflexivity | exact Hb].
  - intros Hne.
    assert (Hl : lengths <> []) by (unfold lengths; destruct bs; [congruence | discriminate]).
    apply list_max_attained in Hl. unfold lengths in Hl at 2.
    apply in_map_iff in Hl as [b [Hb Hin]]. exists b. split; assumption.
  - intros Hnil. unfold lengths. rewrite Hnil. reflexivity.
Qed.

Lemma C6_bucket_totals_witness :
  vloop_of sample_snapshot = Some sample_slot
  /\ slot_ok sample_slot = true
  /\ section_of bucket_header (stdout (analyze_crash sample_snapshot))
     = Some [ "Non-empty buckets: 5/64";
              "Total recorded events: 8";
              "Max events per bucket: 3" ].
Proof.
  split; [reflexivity|]. split; [reflexivity|].
  destruct (C6_bucket_totals sample_snapshot sample_slot eq_refl eq_refl) as [H _].
  rewrite H. reflexivity.
Defined.

(** ** C7: the count of non-empty buckets *)

Lemma distinct_pulses_fit (ps : list Z) (l : Z) :
  0 <= l -> NoDup ps -> Forall (fun p => 0 <= p < l) ps ->
  Z.of_nat (List.length ps) <= l.
Proof.
  intros Hl Hnd Hin. rewrite Forall_forall in Hin.
  assert (Hnd' : NoDup (map Z.to_nat ps)).
  { apply NoDup_map_NoDup_ForallPairs; [|exact Hnd].
    intros x y Hx Hy Hxy. apply Hin in Hx. apply Hin in Hy.
      apply Z2Nat.inj; [lia | lia | exact Hxy]. }
  assert (Hincl : incl (map Z.to_nat ps) (seq 0 (Z.to_nat l))).
  { intros n Hn. apply in_map_iff in Hn as [p [<- Hp]]. apply Hin in Hp.
    apply in_seq. lia. }
  pose proof (NoDup_incl_length Hnd' Hincl) as Hlen.
  rewrite length_map, length_seq in Hlen.
  lia.
Qed.

(** C7: for a valid snapshot, whose loop length is not negative and whose
    buckets have distinct pulses inside [0, loopLength) and at least one event
    each, the count reported as
    "non-empty buckets" is the length of the bucket sequence, and it does not
    exceed [loopLength]. *)
Theorem C7_non_empty_buckets (data : Snapshot) (vloop : Slot) :
  vloop_of data = Some vloop -> slot_ok vloop = true -> valid_buckets vloop ->
  let bs := buckets_of vloop in
  (exists rest,
      section_of bucket_header (stdout (analyze_crash data))
      = Some (("Non-empty buckets: " ++ str (Z.of_nat (List.length bs)) ++ "/"
               ++ str (loop_length_of vloop)) :: rest))
  /\ Z.of_nat (List.length bs) <= loop_length_of vloop.
Proof.
  intros Hfound Hok [Hl [Hnd Hin]] bs. split.
  - rewrite (bucket_section _ _ Hfound Hok). eexists. reflexivity.
  - unfold bs. rewrite <- (length_map pulse_of).
    apply distinct_pulses_fit; [exact Hl | exact Hnd |].
    apply Forall_map. revert Hin. apply Forall_impl. intros b [H _]. exact H.
Qed.


Lemma C7_non_empty_buckets_witness :
  vloop_of sample_snapshot = Some sample_slot
  /\ slot_ok sample_slot = true
  /\ valid_buckets sample_slot
  /\ (exists rest,
         section_of bucket_header (stdout (analyze_crash sample_snapshot))
         = Some (("Non-empty buckets: " ++ str 5 ++ "/" ++ str 64) :: rest))
  /\ 5 <= 64.
Proof.
  assert (Hv : valid_buckets sample_slot).
  { split; [|split].
    - discriminate.
    - repeat constructor; simpl; intuition discriminate.
    - repeat constructor; discriminate. }
  split; [reflexivity|]. split; [reflexivity|]. split; [exact Hv|].
  exact (C7_non_empty_buckets sample_snapshot sample_slot eq_refl eq_refl Hv).
Defined.

(** ** What a run can print and raise *)

Section RunSat.

Variables (P : string -> Prop) (Q : exn -> Prop).

Lemma sat_ret {A} (a : A) : run_sat P Q (ret a).
Proof. split; [constructor | discriminate]. Qed.

Lemma sat_print (s : string) : P s -> run_sat P Q (print s).
Proof. intros H. split; [repeat constructor; exact H | discriminate]. Qed.

Lemma sat_raise {A} (e : exn) : Q e -> run_sat P Q (@raise A e).
Proof. intros H. split; [constructor | intros e' [= <-]; exact H]. Qed.

Lemma sat_bind {A B} (c : run A) (k : A -> run B) :
  run_sat P Q c -> (forall a, outcome c = inr a -> run_sat P Q (k a)) ->
  run_sat P Q (bind c k).
Proof.
  intros [Hp Hq] Hk. unfold bind. destruct (outcome c) as [e|a] eqn:Ho.
  - split; [exact Hp | intros e' [= <-]; apply Hq; reflexivity].
  - destruct (Hk a eq_refl) as [Hp' Hq']. split; [|exact Hq'].
    cbn [stdout]. apply Forall_app. split; assumption.
Qed.

Lemma sat_getitem {A} (key : string) (field : option A) :
  Q (KeyError key) -> run_sat P Q (getitem key field).
Proof. intros H. destruct field; [apply sat_ret | apply sat_raise, H]. Qed.

Lemma sat_mapM {A B} (f : A -> run B) (l : list A) :
  (forall x, run_sat P Q (f x)) -> run_sat P Q (mapM f l).
Proof.
  intros Hf. induction l as [|x l IH]; simpl; [apply sat_ret|].
  apply sat_bind; [apply Hf|]. intros y _.
  apply sat_bind; [exact IH|]. intros ys _. apply sat_ret.
Qed.

Lemma sat_true_divide (a b : Z) :
  b <> 0 -> Q OverflowError -> run_sat P Q (true_divide a b).
Proof.
  intros Hb Ho. destruct (true_divide_cases a b Hb) as [-> | [q ->]];
    [apply sat_raise, Ho | apply sat_ret].
Qed.

End RunSat.

Lemma mapM_length {A B} (f : A -> run B) (l : list A) (ys : list B) :
  outcome (mapM f l) = inr ys -> List.length ys = List.length l.
Proof.
  revert ys. induction l as [|x l IH]; simpl; intros ys.
  - intros [= <-]. reflexivity.
  - unfold bind at 1. destruct (outcome (f x)) as [e|y]; [discriminate|].
    cbn [outcome]. unfold bind at 1.
    destruct (outcome (mapM f l)) as [e|ys'] eqn:Hm; [discriminate|].
    cbn [outcome]. intros [= <-]. simpl. rewrite (IH ys' eq_refl). reflexivity.
Qed.

Ltac sat_step :=
  lazymatch goal with
  | |- run_sat _ _ (ret _) => apply sat_ret
  | |- run_sat _ _ (print _) => apply sat_print; reflexivity
  | |- run_sat _ _ (getitem _ _) => apply sat_getitem; exact I
  | |- run_sat _ _ (mapM _ _) => apply sat_mapM; intros
  | |- run_sat _ _ (bind _ _) => apply sat_bind; [| intros ? ?]
  end.

Ltac sat_steps := repeat sat_step.

Lemma playback_state_sat (vloop : Slot) :
  run_sat report_line expected (playback_state vloop).
Proof. unfold playback_state. sat_steps. Qed.

Lemma debug_counters_sat (d : Counters) :
  run_sat report_line expected (debug_counters d).
Proof. unfold debug_counters. sat_steps. Qed.

Lemma last_midi_sent_sat (d : Counters) :
  run_sat report_line expected (last_midi_sent d).
Proof. rewrite last_midi_sent_ok. split; [repeat constructor | discriminate]. Qed.

Lemma py_max_sat (l : list Z) :
  l <> [] -> run_sat report_line expected (py_max l).
Proof. destruct l; [congruence|]. intros _. apply sat_ret. Qed.

Lemma bucket_analysis_sat (vloop : Slot) (bs : list Bucket) :
  run_sat report_line expected (bucket_analysis vloop bs).
Proof.
  unfold bucket_analysis. sat_steps.
  destruct bs as [|b bs']; sat_steps.
  apply py_max_sat. intros ->.
  match goal with
  | H : outcome (mapM _ _) = inr [] |- _ => apply mapM_length in H; discriminate H
  end.
Qed.

Lemma find_crash_bucket_sat (cp : Z) (bs : list Bucket) :
  run_sat report_line expected (find_crash_bucket cp bs).
Proof.
  induction bs as [|b bs IH]; simpl; sat_steps.
  destruct (_ =? cp); [apply sat_ret | exact IH].
Qed.

Lemma print_events_sat (evs : list MidiEvent) (i : Z) :
  run_sat report_line expected (print_events i evs).
Proof.
  revert i. induction evs as [|e evs IH]; intros i; simpl; sat_steps. apply IH.
Qed.

Lemma crash_point_sat (cp : Z) (bs : list Bucket) :
  run_sat report_line expected (crash_point cp bs).
Proof.
  unfold crash_point. sat_steps; [apply find_crash_bucket_sat|].
  match goal with |- run_sat _ _ (match ?o with _ => _ end) => destruct o end;
    sat_steps. apply print_events_sat.
Qed.

Lemma surrounding_buckets_sat (cp : Z) (bs : list Bucket) :
  run_sat report_line expected (surrounding_buckets cp bs).
Proof.
  unfold surrounding_buckets. sat_steps.
  induction bs as [|b bs IH]; simpl; sat_steps; [|exact IH].
  destruct (_ && _); sat_steps.
Qed.

Lemma performance_stats_sat (vloop : Slot) (d : Counters) :
  run_sat report_line expected (performance_stats vloop d).
Proof.
  unfold performance_stats. sat_steps.
  destruct (0 <? get (totalClockEdges d) 0) eqn:Hg; [|apply sat_ret].
  destruct (clock_edges_guard _ Hg) as [He Hpos].
  apply sat_bind; [apply sat_true_divide; [lia | exact I]|]. intros q1 _.
  sat_steps.
  match goal with |- run_sat _ _ (if 0 <? ?l then _ else _) =>
    destruct (Z.ltb_spec 0 l) end; [|apply sat_ret].
  apply sat_bind; [apply sat_true_divide; [lia | exact I]|]. intros q2 _.
  sat_steps.
Qed.

(** A report about a looper slot never prints the slot-not-found line, and
    raises nothing but a missing key or an overflowing quotient. *)
Lemma analyze_crash_sat (data : Snapshot) (vloop : Slot) :
  vloop_of data = Some vloop ->
  run_sat report_line expected (analyze_crash data).
Proof.
  unfold vloop_of, analyze_crash. intros Hv.
  destruct (slots data) as [sl|]; [|discriminate].
  simpl getitem. rewrite bind_ret, Hv.
  sat_steps;
    first [ apply playback_state_sat | apply debug_counters_sat
          | apply last_midi_sent_sat | apply bucket_analysis_sat
          | apply crash_point_sat | apply surrounding_buckets_sat
          | apply performance_stats_sat ].
Qed.

(** No snapshot makes the report divide by zero or take the maximum of an
    empty sequence. *)
Lemma analyze_crash_raises (data : Snapshot) (e : exn) :
  outcome (analyze_crash data) = inl e -> expected e.
Proof.
  destruct (vloop_of data) as [vloop|] eqn:Hv.
  - apply (analyze_crash_sat _ _ Hv).
  - unfold vloop_of in Hv. unfold analyze_crash.
    destruct (slots data) as [sl|].
    + simpl getitem. rewrite bind_ret, Hv. discriminate.
    + intros [= <-]. exact I.
Qed.

(** ** C8: the performance statistics *)

(** C8, as stated, fails: with one clock edge and a step-call counter of
    [10^400] the quotient is too large for a float, the division raises
    [OverflowError] and no average is printed. *)
Lemma C8_no_average_beyond_float_range :
  vloop_of overflow_snapshot = Some overflow_slot
  /\ slot_ok overflow_slot = true
  /\ 0 < get (totalClockEdges (debug_of overflow_slot)) 0
  /\ section_of perf_header (stdout (analyze_crash overflow_snapshot)) = Some []
  /\ outcome (analyze_crash overflow_snapshot) = inl OverflowError.
Proof. repeat split; vm_compute; reflexivity. Qed.

(** C8, amended: no snapshot makes the report divide by zero.  With
    [totalClockEdges] positive and [stepCallCount / totalClockEdges] within the
    range of a float (as it is for every counter below [2^1023] in absolute
    value) the performance section prints that average with one decimal; when
    [loopLength] is positive too and [totalClockEdges / loopLength] is within
    the range of a float it also prints the loops played with two decimals, and
    the report returns normally.  Each printed decimal is within half a unit
    of its last place, plus the relative error [2^-53] of the float, of the
    exact quotient.  1000 step calls over 20 clock edges of a 16-pulse loop
    give 50.0 and 1.25. *)
Theorem C8_performance_statistics :
  (forall data, outcome (analyze_crash data) <> inl ZeroDivisionError)
  /\ (forall data vloop avg,
         vloop_of data = Some vloop -> slot_ok vloop = true ->
         let calls := get (stepCallCount (debug_of vloop)) 0 in
         let edges := get (totalClockEdges (debug_of vloop)) 0 in
         let l := loop_length_of vloop in
         let avg_line := "Avg step() calls per clock: " ++ format_f 1 avg in
         0 < edges ->
         true_divide calls edges = ret avg ->
         (exists rest,
             section_of perf_header (stdout (analyze_crash data))
             = Some (avg_line :: rest))
         /\ 2 ^ 53 * Z.abs (scaled 1 avg * edges - 10 * Z.abs calls)
            <= 2 ^ 52 * edges + 10 * Z.abs calls
         /\ (l <= 0 ->
             section_of perf_header (stdout (analyze_crash data)) = Some [avg_line]
             /\ outcome (analyze_crash data) = inr tt)
         /\ (forall loops,
                0 < l -> true_divide edges l = ret loops ->
                section_of perf_header (stdout (analyze_crash data))
                = Some [avg_line; "Loops played before crash: " ++ format_f 2 loops]
                /\ outcome (analyze_crash data) = inr tt
                /\ 2 ^ 53 * Z.abs (scaled 2 loops * l - 100 * edges)
                   <= 2 ^ 52 * l + 100 * edges))
  /\ (forall a b, b <> 0 -> Z.abs a < 2 ^ 1023 -> exists q, true_divide a b = ret q)
  /\ section_of perf_header (stdout (analyze_crash perf_snapshot))
     = Some [ "Avg step() calls per clock: 50.0";
              "Loops played before crash: 1.25" ].
Proof.
  split; [|split; [|split]].
  - intros data H. apply (analyze_crash_raises data _ H).
  - intros data vloop avg Hfound Hok calls edges l avg_line Hedges Havg.
    assert (Hll : loopLength vloop = Some l).
    { unfold slot_ok in Hok. repeat (apply andb_prop in Hok as [Hok _]).
      unfold l, loop_length_of. destruct (loopLength vloop); [reflexivity | discriminate]. }
    pose proof (performance_stats_run _ _ _ _ Hedges Hll Havg) as Hrun.
    rewrite !bind_print in Hrun. fold avg_line edges in Hrun.
    rewrite (performance_section _ _ Hfound Hok), (report_outcome _ _ Hfound Hok), Hrun.
    cbn [stdout outcome tl].
    split; [eexists; reflexivity|]. split; [|split].
    + pose proof (true_divide_accuracy 1 calls edges avg) as Hacc.
      rewrite (Z.abs_eq edges) in Hacc by lia.
      apply Hacc; [repeat constructor | exact Havg].
    + intros Hl. destruct (Z.ltb_spec 0 l); [lia|]. split; reflexivity.
    + intros loops Hl Hloops. destruct (Z.ltb_spec 0 l); [|lia].
      rewrite Hloops, bind_ret. split; [reflexivity|]. split; [reflexivity|].
      pose proof (true_divide_accuracy 2 edges l loops) as Hacc.
      rewrite (Z.abs_eq edges), (Z.abs_eq l) in Hacc by lia.
      apply Hacc; [repeat constructor | exact Hloops].
  - exact true_divide_returns.
  - vm_compute. reflexivity.
Qed.

Lemma C8_performance_statistics_witness :
  vloop_of perf_snapshot = Some perf_slot
  /\ slot_ok perf_slot = true
  /\ exists avg loops,
       true_divide 1000 20 = ret avg
       /\ true_divide 20 16 = ret loops
       /\ scaled 1 avg = 500
       /\ scaled 2 loops = 125
       /\ section_of perf_header (stdout (analyze_crash perf_snapshot))
          = Some [ "Avg step() calls per clock: " ++ format_f 1 avg;
                   "Loops played before crash: " ++ format_f 2 loops ]
       /\ outcome (analyze_crash perf_snapshot) = inr tt.
Proof.
  split; [reflexivity|]. split; [reflexivity|].
  destruct C8_performance_statistics as [_ [H [Hret _]]].
  destruct (Hret 1000 20) as [avg Havg]; [discriminate | reflexivity |].
  destruct (Hret 20 16) as [loops Hloops]; [discriminate | reflexivity |].
  destruct (H perf_snapshot perf_slot avg eq_refl eq_refl eq_refl Havg)
    as [_ [_ [_ Hl]]].
  destruct (Hl loops eq_refl Hloops) as [Hsec [Hout _]].
  exists avg, loops.
  split; [exact Havg|]. split; [exact Hloops|].
  split; [|split; [|split; [exact Hsec | exact Hout]]].
  - apply (true_divide_exact 1 1000 20 500 avg);
      [repeat constructor | split; [discriminate | reflexivity] | reflexivity | exact Havg].
  - apply (true_divide_exact 2 20 16 125 loops);
      [repeat constructor | split; [discriminate | reflexivity] | reflexivity | exact Hloops].
Defined.

(** ** C9: optional fields and their defaults *)

Lemma find_vloop_default (sl : list Slot) :
  find_vloop (map default_slot sl) = option_map default_slot (find_vloop sl).
Proof.
  induction sl as [|s sl IH]; simpl; [reflexivity|].
  destruct (match guid s with Some g => String.eqb g "VLOP" | None => false end);
    [reflexivity | exact IH].
Qed.

Lemma performance_stats_default (vloop : Slot) (d : Counters) :
  performance_stats (default_slot vloop) (default_counters d)
  = performance_stats vloop d.
Proof.
  unfold performance_stats. cbn [default_counters default_slot totalClockEdges
    stepCallCount loopLength get].
  destruct (0 <? get (totalClockEdges d) 0) eqn:Hg; [|reflexivity].
  destruct (clock_edges_guard _ Hg) as [-> _]. reflexivity.
Qed.

(** C9: absent optional fields are no errors.  The report of any snapshot is
    the report of the snapshot with the defaults written out (all four counters
    and [lastPulseWithMidi] 0, [lastMidiSent] the all-zero event, the bucket list
    empty); and a looper slot without [debug] and without [buckets] is reported
    to completion, with zero counters, the all-zero last message in the generic
    fallback form, and no buckets. *)
Theorem C9_optional_fields_default :
  (forall data, analyze_crash (fill_defaults data) = analyze_crash data)
  /\ (forall l p r q,
         analyze_crash (mkSnapshot (Some [bare_slot l p r q]))
         = Run [ rule; "VLoop CRASH ANALYSIS"; rule;
                 playback_header;
                 "Loop Length:    " ++ str l ++ " pulses";
                 "Current Pulse:  " ++ str p ++ " <-- CRASHED HERE";
                 "Is Recording:   " ++ str_bool r;
                 "Is Playing:     " ++ str_bool q;
                 counters_header;
                 "Total step() calls:     0";
                 "Total clock edges:      0";
                 "Total MIDI received:    0";
                 "Total MIDI sent:        0";
                 nl ++ "Last MIDI sent at pulse 0:";
                 "  Status=0x0 data1=0 data2=0";
                 bucket_header;
                 "Non-empty buckets: 0/" ++ str l;
                 "Total recorded events: 0";
                 "Max events per bucket: 0";
                 crash_header p;
                 "Bucket at crash pulse is EMPTY (no events)";
                 surrounding_header;
                 perf_header ] (inr tt)).
Proof.
  split.
  - intros data. unfold fill_defaults, analyze_crash. cbn [slots].
    destruct (slots data) as [sl|]; [|reflexivity].
    simpl getitem. rewrite !bind_ret, find_vloop_default.
    destruct (find_vloop sl) as [vloop|]; [|reflexivity].
    cbn [option_map].
    change (get (debug (default_slot vloop)) empty_counters)
      with (default_counters (get (debug vloop) empty_counters)).
    rewrite performance_stats_default. reflexivity.
  - intros l p r q. reflexivity.
Qed.

(** ** C10: required keys *)

Lemma outcome_bind {A B} (c : run A) (k : A -> run B) :
  outcome (bind c k)
  = match outcome c with
    | inl e => inl e
    | inr a => outcome (k a)
    end.
Proof. unfold bind. destruct (outcome c); reflexivity. Qed.

Lemma mapM_pulse_all (bs : list Bucket) :
  forallb (fun b => has (pulse b)) bs = true ->
  mapM (fun b => getitem "pulse" (pulse b)) bs = ret (map pulse_of bs).
Proof.
  induction bs as [|b bs IH]; simpl; intros H; [reflexivity|].
  apply andb_prop in H as [Hp Hbs].
  rewrite (getitem_has _ _ 0 Hp), bind_ret, (IH Hbs). reflexivity.
Qed.

Lemma mapM_pulse_missing (bs : list Bucket) :
  forallb (fun b => has (pulse b)) bs = false ->
  mapM (fun b => getitem "pulse" (pulse b)) bs = raise (KeyError "pulse").
Proof.
  induction bs as [|b bs IH]; simpl; intros H; [discriminate|].
  destruct (pulse b) as [p|]; [|reflexivity].
  simpl in H. simpl getitem. rewrite bind_ret, (IH H). reflexivity.
Qed.

Lemma mapM_counts_missing (bs : list Bucket) :
  forallb (fun b => has (events b)) bs = false ->
  mapM (fun b => evs <- getitem "events" (events b) ;; ret (len evs)) bs
  = raise (KeyError "events").
Proof.
  induction bs as [|b bs IH]; simpl; intros H; [discriminate|].
  destruct (events b) as [evs|]; [|reflexivity].
  simpl in H. simpl getitem. rewrite !bind_ret, (IH H). reflexivity.
Qed.

Lemma bucket_analysis_missing (vloop : Slot) (l : Z) (bs : list Bucket) (key : string) :
  loopLength vloop = Some l -> missing_bucket_key bs = Some key ->
  outcome (bucket_analysis vloop bs) = inl (KeyError key).
Proof.
  intros Hl. unfold missing_bucket_key, bucket_analysis.
  rewrite Hl, bind_print. simpl getitem. rewrite bind_ret, bind_print. cbn [outcome].
  destruct (forallb (fun b => has (pulse b)) bs) eqn:Hp; cbn [negb].
  - rewrite (mapM_pulse_all _ Hp), bind_ret.
    destruct (forallb (fun b => has (events b)) bs) eqn:He; cbn [negb]; [discriminate|].
    intros [= <-]. rewrite (mapM_counts_missing _ He). reflexivity.
  - intros [= <-]. rewrite (mapM_pulse_missing _ Hp). reflexivity.
Qed.

Lemma analyze_crash_missing (data : Snapshot) (vloop : Slot) (key : string) :
  vloop_of data = Some vloop -> missing_slot_key vloop = Some key ->
  outcome (analyze_crash data) = inl (KeyError key).
Proof.
  unfold vloop_of, analyze_crash, missing_slot_key. intros Hv.
  destruct (slots data) as [sl|]; [|discriminate].
  simpl getitem. rewrite bind_ret, Hv, !bind_print. cbn [outcome].
  destruct (loopLength vloop) as [l|] eqn:Hl; cbn [has negb];
    [|intros [= <-]; unfold playback_state; rewrite Hl; reflexivity].
  destruct (currentPulse vloop) as [p|] eqn:Hp; cbn [has negb];
    [|intros [= <-]; unfold playback_state; rewrite Hl, Hp; reflexivity].
  destruct (isRecording vloop) as [r|] eqn:Hr; cbn [has negb];
    [|intros [= <-]; unfold playback_state; rewrite Hl, Hp, Hr; reflexivity].
  destruct (isPlaying vloop) as [q|] eqn:Hq; cbn [has negb];
    [|intros [= <-]; unfold playback_state; rewrite Hl, Hp, Hr, Hq; reflexivity].
  intros Hkey. unfold buckets_of in Hkey.
  rewrite (playback_state_ok _ _ _ _ _ Hl Hp Hr Hq), bind_Run_inr.
  rewrite debug_counters_ok, bind_Run_inr, last_midi_sent_ok, bind_Run_inr.
  cbn [outcome]. rewrite outcome_bind.
  rewrite (bucket_analysis_missing _ _ _ _ Hl Hkey). reflexivity.
Qed.

Lemma lacks_required_key (vloop : Slot) :
  lacks_required vloop = true ->
  exists key, missing_slot_key vloop = Some key /\ In key required_keys.
Proof.
  unfold lacks_required, missing_slot_key, missing_bucket_key, required_keys.
  destruct (has (loopLength vloop)); cbn [negb orb]; [|simpl; eauto 10].
  destruct (has (currentPulse vloop)); cbn [negb orb]; [|simpl; eauto 10].
  destruct (has (isRecording vloop)); cbn [negb orb]; [|simpl; eauto 10].
  destruct (has (isPlaying vloop)); cbn [negb orb]; [|simpl; eauto 10].
  intros H. apply existsb_exists in H as [b [Hb Hlack]].
  destruct (forallb (fun b => has (pulse b)) (buckets_of vloop)) eqn:Hp;
    cbn [negb]; [|simpl; eauto 10].
  destruct (forallb (fun b => has (events b)) (buckets_of vloop)) eqn:He;
    cbn [negb]; [|simpl; eauto 10].
  rewrite forallb_forall in Hp, He.
  rewrite (Hp b Hb), (He b Hb) in Hlack. discriminate.
Qed.

(** C10: required keys are read without a presence check.  A snapshot without
    [slots], or whose looper slot lacks [loopLength], [currentPulse],
    [isRecording] or [isPlaying], or has a bucket without [pulse] or [events],
    makes the report end in a [KeyError] for the first such key that it reads;
    what was printed before stays printed, and the slot-not-found line is not
    among it. *)
Theorem C10_missing_required_key (data : Snapshot) :
  slots data = None
  \/ (exists vloop, vloop_of data = Some vloop /\ lacks_required vloop = true) ->
  exists key,
    In key required_keys
    /\ match slots data with
       | None => key = "slots"
       | Some sl =>
           exists vloop, find_vloop sl = Some vloop
                         /\ missing_slot_key vloop = Some key
       end
    /\ outcome (analyze_crash data) = inl (KeyError key)
    /\ ~ In "ERROR: VLoop slot not found" (stdout (analyze_crash data)).
Proof.
  intros [Hnone | [vloop [Hfound Hlacks]]].
  - exists "slots". unfold analyze_crash. rewrite Hnone. simpl.
    split; [left; reflexivity|]. split; [reflexivity|]. split; [reflexivity|].
    intros [].
  - destruct (lacks_required_key _ Hlacks) as [key [Hkey Hin]].
    exists key. split; [exact Hin|]. split; [|split].
    + unfold vloop_of in Hfound. destruct (slots data) as [sl|]; [|discriminate].
      exists vloop. split; assumption.
    + apply (analyze_crash_missing _ _ _ Hfound Hkey).
    + destruct (analyze_crash_sat _ _ Hfound) as [Hlines _].
      rewrite Forall_forall in Hlines. intros Herr.
      apply Hlines in Herr. discriminate Herr.
Qed.

Lemma C10_missing_required_key_witness :
  (exists vloop, vloop_of broken_snapshot = Some vloop /\ lacks_required vloop = true)
  /\ analyze_crash broken_snapshot
     = Run [ rule; "VLoop CRASH ANALYSIS"; rule;
             playback_header;
             "Loop Length:    16 pulses";
             "Current Pulse:  3 <-- CRASHED HERE";
             "Is Recording:   False";
             "Is Playing:     True";
             counters_header;
             "Total step() calls:     0";
             "Total clock edges:      0";
             "Total MIDI received:    0";
             "Total MIDI sent:        0";
             nl ++ "Last MIDI sent at pulse 0:";
             "  Status=0x0 data1=0 data2=0";
             bucket_header;
             "Non-empty buckets: 2/16" ] (inl (KeyError "events"))
  /\ exists key,
       In key required_keys
       /\ outcome (analyze_crash broken_snapshot) = inl (KeyError key).
Proof.
  assert (H : exists vloop, vloop_of broken_snapshot = Some vloop
                            /\ lacks_required vloop = true)
    by (eexists; split; reflexivity).
  split; [exact H|]. split; [reflexivity|].
  destruct (C10_missing_required_key broken_snapshot (or_intror H))
    as [key [Hin [_ [Hout _]]]].
  exists key. split; assumption.
Defined.

(** * Further properties of [analyze_crash] *)

(** ** The exceptions of a run *)

Ltac foreseen_step :=
  lazymatch goal with
  | |- run_sat _ _ (ret _) => apply sat_ret
  | |- run_sat _ _ (print _) => apply sat_print; exact I
  | |- run_sat _ _ (getitem _ _) => apply sat_getitem; simpl; tauto
  | |- run_sat _ _ (mapM _ _) => apply sat_mapM; intros
  | |- run_sat _ _ (bind _ _) => apply sat_bind; [| intros ? ?]
  end.

Ltac foreseen_steps := repeat foreseen_step.

Lemma playback_state_foreseen (vloop : Slot) :
  run_sat any_line foreseen (playback_state vloop).
Proof. unfold playback_state. foreseen_steps. Qed.

Lemma debug_counters_foreseen (d : Counters) :
  run_sat any_line foreseen (debug_counters d).
Proof. unfold debug_counters. foreseen_steps. Qed.

Lemma last_midi_sent_foreseen (d : Counters) :
  run_sat any_line foreseen (last_midi_sent d).
Proof. rewrite last_midi_sent_ok. split; [repeat constructor | discriminate]. Qed.

Lemma bucket_analysis_foreseen (vloop : Slot) (bs : list Bucket) :
  run_sat any_line foreseen (bucket_analysis vloop bs).
Proof.
  unfold bucket_analysis. foreseen_steps.
  destruct bs as [|b bs']; foreseen_steps.
  match goal with
  | H : outcome (mapM _ _) = inr ?l |- run_sat _ _ (py_max ?l) =>
      apply mapM_length in H; destruct l; [discriminate H | apply sat_ret]
  end.
Qed.

Lemma find_crash_bucket_foreseen (cp : Z) (bs : list Bucket) :
  run_sat any_line foreseen (find_crash_bucket cp bs).
Proof.
  induction bs as [|b bs IH]; simpl; foreseen_steps.
  destruct (_ =? cp); [apply sat_ret | exact IH].
Qed.

Lemma print_events_foreseen (evs : list MidiEvent) (i : Z) :
  run_sat any_line foreseen (print_events i evs).
Proof.
  revert i. induction evs as [|e evs IH]; intros i; simpl; foreseen_steps. apply IH.
Qed.

Lemma crash_point_foreseen (cp : Z) (bs : list Bucket) :
  run_sat any_line foreseen (crash_point cp bs).
Proof.
  unfold crash_point. foreseen_steps; [apply find_crash_bucket_foreseen|].
  match goal with |- run_sat _ _ (match ?o with _ => _ end) => destruct o end;
    foreseen_steps. apply print_events_foreseen.
Qed.

Lemma surrounding_buckets_foreseen (cp : Z) (bs : list Bucket) :
  run_sat any_line foreseen (surrounding_buckets cp bs).
Proof.
  unfold surrounding_buckets. foreseen_steps.
  induction bs as [|b bs IH]; simpl; foreseen_steps; [|exact IH].
  destruct (_ && _); foreseen_steps.
Qed.

Lemma performance_stats_foreseen (vloop : Slot) (d : Counters) :
  run_sat any_line foreseen (performance_stats vloop d).
Proof.
  unfold performance_stats. foreseen_steps.
  destruct (0 <? get (totalClockEdges d) 0) eqn:Hg; [|apply sat_ret].
  destruct (clock_edges_guard _ Hg) as [He Hpos].
  apply sat_bind; [apply sat_true_divide; [lia | exact I]|]. intros q1 _.
  foreseen_steps.
  match goal with |- run_sat _ _ (if 0 <? ?l then _ else _) =>
    destruct (Z.ltb_spec 0 l) end; [|apply sat_ret].
  apply sat_bind; [apply sat_true_divide; [lia | exact I]|]. intros q2 _.
  foreseen_steps.
Qed.

(** X1: whatever the snapshot, a run of the report ends normally, in a
    [KeyError] for one of the ten keys that the script reads with [d[key]], or
    in the [OverflowError] of a division; in particular it never takes the
    maximum of an empty sequence and never divides by zero. *)
Theorem X1_exceptions_of_a_run (data : Snapshot) :
  outcome (analyze_crash data) = inr tt
  \/ (exists key, In key read_keys
                  /\ outcome (analyze_crash data) = inl (KeyError key))
  \/ outcome (analyze_crash data) = inl OverflowError.
Proof.
  assert (H : run_sat any_line foreseen (analyze_crash data)).
  { unfold analyze_crash.
    apply sat_bind; [apply sat_getitem; simpl; tauto|]. intros sl _.
    destruct (find_vloop sl) as [vloop|]; [|apply sat_print; exact I].
    foreseen_steps;
      first [ apply playback_state_foreseen | apply debug_counters_foreseen
            | apply last_midi_sent_foreseen | apply bucket_analysis_foreseen
            | apply crash_point_foreseen | apply surrounding_buckets_foreseen
            | apply performance_stats_foreseen ]. }
  destruct H as [_ H].
  destruct (outcome (analyze_crash data)) as [e|[]]; [|left; reflexivity].
  specialize (H e eq_refl). destruct e as [key| | |]; simpl in H.
  - right; left. exists key. split; [exact H | reflexivity].
  - contradiction.
  - contradiction.
  - right; right. reflexivity.
Qed.

(** ** Which runs end in a missing key *)

Lemma forallb_bucket_ok (bs : list Bucket) :
  forallb bucket_ok bs
  = forallb (fun b => has (pulse b)) bs && forallb (fun b => has (events b)) bs.
Proof.
  induction bs as [|b bs IH]; simpl; [reflexivity|]. rewrite IH. unfold bucket_ok.
  destruct (has (pulse b)), (has (events b)),
    (forallb (fun b => has (pulse b)) bs), (forallb (fun b => has (events b)) bs);
    reflexivity.
Qed.

Lemma print_events_missing (evs : list MidiEvent) (i : Z) :
  forallb event_ok evs = false ->
  exists key, outcome (print_events i evs) = inl (KeyError key).
Proof.
  revert i. induction evs as [|e evs IH]; intros i H; [discriminate|].
  cbn [forallb] in H. unfold event_ok at 1 in H. cbn [print_events].
  destruct (status e) as [s|]; [|eexists; reflexivity].
  destruct (data1 e) as [d1|]; [|eexists; reflexivity].
  destruct (data2 e) as [d2|]; [|eexists; reflexivity].
  cbn [has andb] in H.
  destruct (IH (i + 1) H) as [key Hkey]. exists key.
  simpl getitem. rewrite !bind_ret, bind_print. exact Hkey.
Qed.

Lemma performance_stats_ends (vloop : Slot) (d : Counters) :
  has (loopLength vloop) = true ->
  outcome (performance_stats vloop d) = inr tt
  \/ outcome (performance_stats vloop d) = inl OverflowError.
Proof.
  intros Hl. destruct (has_Some _ Hl) as [l Hll].
  unfold performance_stats. rewrite bind_print, Hll. cbn [outcome].
  destruct (0 <? get (totalClockEdges d) 0) eqn:Hg; [|left; reflexivity].
  destruct (clock_edges_guard _ Hg) as [He Hpos].
  destruct (true_divide_cases (get (stepCallCount d) 0) (get (totalClockEdges d) 1))
    as [-> | [q1 ->]]; [lia | right; reflexivity |].
  rewrite bind_ret, bind_print. cbn [outcome]. simpl getitem. rewrite bind_ret.
  destruct (Z.ltb_spec 0 l); [|left; reflexivity].
  destruct (true_divide_cases (get (totalClockEdges d) 0) l)
    as [-> | [q2 ->]]; [lia | right; reflexivity |].
  rewrite bind_ret. left. reflexivity.
Qed.

Lemma missing_slot_key_none (vloop : Slot) :
  missing_slot_key vloop = None ->
  has (loopLength vloop) = true /\ has (currentPulse vloop) = true
  /\ has (isRecording vloop) = true /\ has (isPlaying vloop) = true
  /\ forallb bucket_ok (buckets_of vloop) = true.
Proof.
  unfold missing_slot_key, missing_bucket_key. rewrite forallb_bucket_ok.
  destruct (has (loopLength vloop)); cbn [negb]; [|discriminate].
  destruct (has (currentPulse vloop)); cbn [negb]; [|discriminate].
  destruct (has (isRecording vloop)); cbn [negb]; [|discriminate].
  destruct (has (isPlaying vloop)); cbn [negb]; [|discriminate].
  destruct (forallb (fun b => has (pulse b)) (buckets_of vloop)); cbn [negb];
    [|discriminate].
  destruct (forallb (fun b => has (events b)) (buckets_of vloop)); cbn [negb];
    [|discriminate].
  intros _. repeat split; reflexivity.
Qed.

Lemma analyze_crash_incomplete (data : Snapshot) (vloop : Slot) :
  vloop_of data = Some vloop -> slot_ok vloop = false ->
  exists key, outcome (analyze_crash data) = inl (KeyError key).
Proof.
  intros Hfound Hbad.
  destruct (missing_slot_key vloop) as [key|] eqn:Hkey.
  { exists key. apply (analyze_crash_missing _ _ _ Hfound Hkey). }
  destruct (missing_slot_key_none _ Hkey) as [Hl [Hp [Hr [Hq Hbs]]]].
  unfold slot_ok in Hbad. rewrite Hl, Hp, Hr, Hq, Hbs in Hbad. cbn [andb] in Hbad.
  destruct (bucket_at (crash_pulse_of vloop) (buckets_of vloop)) as [b|] eqn:Hb;
    [|discriminate].
  destruct (has_Some _ Hl) as [l Hll]. destruct (has_Some _ Hp) as [p Hpp].
  destruct (has_Some _ Hr) as [r Hrr]. destruct (has_Some _ Hq) as [q Hqq].
  assert (Hcp : crash_pulse_of vloop = p) by (unfold crash_pulse_of; rewrite Hpp; reflexivity).
  rewrite Hcp in Hb.
  destruct (print_events_missing _ 0 Hbad) as [key Hev]. exists key.
  unfold vloop_of in Hfound. unfold analyze_crash.
  destruct (slots data) as [sl|]; [|discriminate].
  simpl getitem. rewrite bind_ret, Hfound, !bind_print. cbn [outcome].
  rewrite (playback_state_ok _ _ _ _ _ Hll Hpp Hrr Hqq), bind_Run_inr.
  rewrite debug_counters_ok, bind_Run_inr, last_midi_sent_ok, bind_Run_inr.
  fold (buckets_of vloop).
  rewrite (bucket_analysis_ok _ _ _ Hll Hbs), bind_Run_inr.
  rewrite Hpp. simpl getitem. rewrite bind_ret. cbn [outcome].
  rewrite outcome_bind.
  assert (Hcr : outcome (crash_point p (buckets_of vloop)) = inl (KeyError key)).
  { unfold crash_point. rewrite bind_print, (find_crash_bucket_ok _ _ Hbs), bind_ret, Hb.
    cbn [outcome].
    assert (Hin : bucket_ok b = true).
    { apply find_some in Hb as [Hin _].
      rewrite forallb_forall in Hbs. apply Hbs, Hin. }
    apply andb_prop in Hin as [_ He].
    rewrite (getitem_has _ _ [] He), bind_ret, bind_print. exact Hev. }
  rewrite Hcr. reflexivity.
Qed.

(** X2: for a snapshot with a looper slot, the report ends in a [KeyError]
    exactly when one of the keys that it reads with [d[key]] is missing: one
    of the four playback fields, [pulse] or [events] of a bucket, or a byte of
    an event of the crash-point bucket.  Events of other buckets are counted
    but never read, so bytes missing there do no harm. *)
Theorem X2_key_error_iff_key_missing (data : Snapshot) (vloop : Slot) :
  vloop_of data = Some vloop ->
  ((exists key, outcome (analyze_crash data) = inl (KeyError key))
   <-> slot_ok vloop = false).
Proof.
  intros Hfound. split.
  - intros [key Hkey]. destruct (slot_ok vloop) eqn:Hok; [|reflexivity].
    rewrite (report_outcome _ _ Hfound Hok) in Hkey.
    assert (Hl : has (loopLength vloop) = true).
    { unfold slot_ok in Hok. repeat (apply andb_prop in Hok as [Hok _]). exact Hok. }
    destruct (performance_stats_ends vloop (debug_of vloop) Hl) as [H|H];
      rewrite H in Hkey; discriminate.
  - apply analyze_crash_incomplete, Hfound.
Qed.

Lemma X2_key_error_iff_key_missing_witness :
  vloop_of torn_snapshot = Some torn_slot
  /\ slot_ok torn_slot = false
  /\ exists key, outcome (analyze_crash torn_snapshot) = inl (KeyError key).
Proof.
  split; [reflexivity|]. split; [reflexivity|].
  apply (proj2 (X2_key_error_iff_key_missing torn_snapshot torn_slot eq_refl)).
  reflexivity.
Defined.

(** ** The slot that is reported *)

Lemma find_vloop_none_inv (sl : list Slot) :
  find_vloop sl = None -> Forall (fun s => guid s <> Some "VLOP") sl.
Proof.
  induction sl as [|s sl IH]; simpl; [constructor|].
  destruct (guid s) as [g|] eqn:Hg.
  - destruct (String.eqb_spec g "VLOP") as [->|Hne]; [discriminate|].
    intros H. constructor; [|apply IH, H].
    rewrite Hg. intros [= ->]. apply Hne. reflexivity.
  - intros H. constructor; [rewrite Hg; discriminate | apply IH, H].
Qed.

(** X3: the line "ERROR: VLoop slot not found" is printed exactly when the
    snapshot has a slot sequence and none of its slots is tagged "VLOP"; no
    report about a looper slot, complete or cut short, contains it. *)
Theorem X3_not_found_line_iff (data : Snapshot) :
  In "ERROR: VLoop slot not found" (stdout (analyze_crash data))
  <-> exists sl, slots data = Some sl
                 /\ Forall (fun s => guid s <> Some "VLOP") sl.
Proof.
  split.
  - intros Hin. destruct (vloop_of data) as [vloop|] eqn:Hv.
    + destruct (analyze_crash_sat _ _ Hv) as [Hlines _].
      rewrite Forall_forall in Hlines. apply Hlines in Hin. discriminate Hin.
    + unfold vloop_of in Hv. destruct (slots data) as [sl|] eqn:Hsl.
      * exists sl. split; [reflexivity | apply find_vloop_none_inv, Hv].
      * unfold analyze_crash in Hin. rewrite Hsl in Hin. destruct Hin.
  - intros [sl [Hsl Hnone]]. unfold analyze_crash. rewrite Hsl. simpl getitem.
    rewrite bind_ret, (find_vloop_none _ Hnone). left. reflexivity.
Qed.

Lemma find_vloop_first (pre post : list Slot) (v : Slot) :
  Forall (fun s => guid s <> Some "VLOP") pre -> guid v = Some "VLOP" ->
  find_vloop (pre ++ v :: post)%list = Some v.
Proof.
  intros Hpre Hv. induction Hpre as [|s pre Hs _ IH]; simpl.
  - rewrite Hv. reflexivity.
  - destruct (guid s) as [g|]; [|exact IH].
    destruct (String.eqb_spec g "VLOP") as [->|_]; [|exact IH].
    exfalso. apply Hs. reflexivity.
Qed.

(** X4: the report is about the first slot tagged "VLOP" and about nothing
    else: the slots before it and all the slots after it, tagged "VLOP" or not,
    leave the run as it is for that slot alone. *)
Theorem X4_first_looper_slot (pre post : list Slot) (v : Slot) :
  Forall (fun s => guid s <> Some "VLOP") pre -> guid v = Some "VLOP" ->
  analyze_crash (mkSnapshot (Some (pre ++ v :: post)%list))
  = analyze_crash (mkSnapshot (Some [v])).
Proof.
  intros Hpre Hv. unfold analyze_crash. cbn [slots]. simpl getitem.
  rewrite !bind_ret, (find_vloop_first _ _ _ Hpre Hv).
  pose proof (find_vloop_first [] [] v (Forall_nil _) Hv) as Hone.
  cbn [app] in Hone. rewrite Hone. reflexivity.
Qed.

Lemma X4_first_looper_slot_witness :
  Forall (fun s => guid s <> Some "VLOP")
    [mkSlot (Some "DLAY") None None None None None None]
  /\ guid sample_slot = Some "VLOP"
  /\ analyze_crash
       (mkSnapshot (Some ([mkSlot (Some "DLAY") None None None None None None]
                          ++ sample_slot :: [idle_slot; perf_slot])%list))
     = analyze_crash (mkSnapshot (Some [sample_slot])).
Proof.
  assert (H : Forall (fun s => guid s <> Some "VLOP")
                [mkSlot (Some "DLAY") None None None None None None])
    by (repeat constructor; discriminate).
  split; [exact H|]. split; [reflexivity|].
  apply (X4_first_looper_slot _ [idle_slot; perf_slot] sample_slot H eq_refl).
Defined.

(** ** The order of the sections *)

Lemma headers_of_plain (ls : list string) : Forall plain ls -> headers_of ls = [].
Proof.
  induction 1 as [|l ls Hl _ IH]; [reflexivity|].
  unfold headers_of in *. simpl. rewrite (plain_not_header _ Hl). exact IH.
Qed.

Lemma headers_of_header (h : string) (ls : list string) :
  is_header h = true -> headers_of (h :: ls) = h :: headers_of ls.
Proof. intros H. unfold headers_of. simpl. rewrite H. reflexivity. Qed.

Lemma headers_of_app (l1 l2 : list string) :
  headers_of (l1 ++ l2) = (headers_of l1 ++ headers_of l2)%list.
Proof. apply filter_app. Qed.

(** X5: a report on a looper slot with all its keys has six sections, opened
    in this order: playback state, debug counters, bucket analysis, crash
    point, surrounding buckets, performance statistics.  The line about the
    last message sent belongs to the debug counters. *)
Theorem X5_six_sections_in_order (data : Snapshot) (vloop : Slot) :
  vloop_of data = Some vloop -> slot_ok vloop = true ->
  headers_of (stdout (analyze_crash data))
  = [ playback_header; counters_header; bucket_header;
      crash_header (crash_pulse_of vloop); surrounding_header; perf_header ].
Proof.
  intros Hfound Hok. rewrite (analyze_crash_ok _ _ Hfound Hok). cbn [stdout].
  destruct (performance_stats_shape vloop (debug_of vloop)) as [body [-> Hbody]].
  rewrite !headers_of_app.
  change (headers_of (report_head vloop)) with [playback_header; counters_header].
  rewrite !headers_of_header by reflexivity.
  pose proof (headers_of_plain _
                (bucket_lines_plain (loop_length_of vloop) (buckets_of vloop))) as H1.
  pose proof (headers_of_plain _
                (crash_lines_plain (crash_pulse_of vloop) (buckets_of vloop))) as H2.
  pose proof (headers_of_plain _
                (surrounding_lines_plain (crash_pulse_of vloop) (buckets_of vloop)))
    as H3.
  rewrite H1, H2, H3, (headers_of_plain _ Hbody). reflexivity.
Qed.

Lemma X5_six_sections_in_order_witness :
  vloop_of sample_snapshot = Some sample_slot
  /\ slot_ok sample_slot = true
  /\ headers_of (stdout (analyze_crash sample_snapshot))
     = [ playback_header; counters_header; bucket_header;
         crash_header 50; surrounding_header; perf_header ].
Proof.
  split; [reflexivity|]. split; [reflexivity|].
  apply (X5_six_sections_in_order sample_snapshot sample_slot eq_refl eq_refl).
Defined.

(** ** The decode as a table *)

(** X6: on a status byte the decode is a table by ranges: 0x80-0x8F is Note
    Off, 0x90-0x9F Note On, 0xB0-0xBF Control Change, each with the channel
    counted from 1 at the bottom of its range, and every other byte takes the
    generic form. *)
Theorem X6_decode_table (status d1 d2 : Z) :
  0 <= status <= 255 ->
  event_msg status d1 d2 = decode_byte status d1 d2.
Proof.
  intros Hbyte. unfold event_msg, decode_byte.
  rewrite land_high, land_low.
  pose proof (Z.div_mod status 16 ltac:(lia)) as Hdm.
  pose proof (Z.mod_pos_bound status 16 ltac:(lia)) as Hr.
  assert (Hq : 0 <= status / 16 <= 15).
  { split; [apply Z.div_pos; lia|].
    assert (status / 16 < 16) by (apply Z.div_lt_upper_bound; lia). lia. }
  rewrite (Z.mod_small (status / 16) 16) by lia.
  set (q := status / 16) in *. set (r := status mod 16) in *.
  destruct (Z.eqb_spec (16 * q) 144) as [H9|H9].
  { replace ((128 <=? status) && (status <=? 143)) with false
      by (symmetry; apply andb_false_iff; right; apply Z.leb_gt; lia).
    replace ((144 <=? status) && (status <=? 159)) with true
      by (symmetry; apply andb_true_iff; split; apply Z.leb_le; lia).
    replace (status - 143) with (r + 1) by lia. reflexivity. }
  destruct (Z.eqb_spec (16 * q) 128) as [H8|H8].
  { replace ((128 <=? status) && (status <=? 143)) with true
      by (symmetry; apply andb_true_iff; split; apply Z.leb_le; lia).
    replace (status - 127) with (r + 1) by lia. reflexivity. }
  destruct (Z.eqb_spec (16 * q) 176) as [Hb|Hb].
  { replace ((128 <=? status) && (status <=? 143)) with false
      by (symmetry; apply andb_false_iff; right; apply Z.leb_gt; lia).
    replace ((144 <=? status) && (status <=? 159)) with false
      by (symmetry; apply andb_false_iff; right; apply Z.leb_gt; lia).
    replace ((176 <=? status) && (status <=? 191)) with true
      by (symmetry; apply andb_true_iff; split; apply Z.leb_le; lia).
    replace (status - 175) with (r + 1) by lia. reflexivity. }
  replace ((128 <=? status) && (status <=? 143)) with false.
  2:{ symmetry. apply andb_false_iff.
      destruct (Z.leb_spec 128 status); [right; apply Z.leb_gt; lia | left; reflexivity]. }
  replace ((144 <=? status) && (status <=? 159)) with false.
  2:{ symmetry. apply andb_false_iff.
      destruct (Z.leb_spec 144 status); [right; apply Z.leb_gt; lia | left; reflexivity]. }
  replace ((176 <=? status) && (status <=? 191)) with false.
  2:{ symmetry. apply andb_false_iff.
      destruct (Z.leb_spec 176 status); [right; apply Z.leb_gt; lia | left; reflexivity]. }
  reflexivity.
Qed.

Lemma X6_decode_table_witness :
  0 <= 0x9F <= 255
  /\ event_msg 0x9F 60 100 = "Note On ch16: note=60 vel=100".
Proof.
  assert (H : 0 <= 0x9F <= 255) by lia.
  split; [exact H|].
  rewrite (X6_decode_table 0x9F 60 100 H). reflexivity.
Defined.

(** ** The crash bucket in two sections *)

(** X7: the crash-point section and the surrounding-buckets section agree.
    When a bucket is stored at the crash pulse, the surrounding section lists
    it, marked as the crash and with the event count that the crash-point
    section reports; when none is, no line of the surrounding section is
    marked. *)
Theorem X7_crash_bucket_is_listed (data : Snapshot) (vloop : Slot) :
  vloop_of data = Some vloop -> slot_ok vloop = true ->
  let cp := crash_pulse_of vloop in
  let bs := buckets_of vloop in
  let out := stdout (analyze_crash data) in
  (forall b, bucket_at cp bs = Some b ->
     exists crash listed,
       section_of (crash_header cp) out = Some crash
       /\ section_of surrounding_header out = Some listed
       /\ hd "" crash = "Bucket at crash has " ++ str (len (events_of b)) ++ " events:"
       /\ In ("Pulse " ++ str cp ++ ": " ++ str (len (events_of b))
              ++ " events <-- CRASH") listed)
  /\ (bucket_at cp bs = None ->
      section_of surrounding_header out
      = Some (map (fun b => "Pulse " ++ str (pulse_of b) ++ ": "
                            ++ str (len (events_of b)) ++ " events")
                (filter (in_window cp) bs))).
Proof.
  intros Hfound Hok cp bs out.
  pose proof (crash_section _ _ Hfound Hok) as Hcrash.
  pose proof (surrounding_section _ _ Hfound Hok) as Hsur.
  fold cp bs out in Hcrash, Hsur. split.
  - intros b Hb. exists (crash_lines cp bs), (surrounding_lines cp bs).
    split; [exact Hcrash|]. split; [exact Hsur|]. split.
    + unfold crash_lines. rewrite Hb. reflexivity.
    + apply find_some in Hb as [Hin Hp]. apply Z.eqb_eq in Hp.
      unfold surrounding_lines. apply in_map_iff. exists b. split.
      * unfold context_line. rewrite Hp, Z.eqb_refl. reflexivity.
      * apply filter_In. split; [exact Hin|]. unfold in_window. rewrite Hp.
        apply andb_true_iff. split; apply Z.leb_le; lia.
  - intros Hnone. rewrite Hsur. f_equal. unfold surrounding_lines.
    apply map_ext_in. intros b Hb. apply filter_In in Hb as [Hin _].
    unfold context_line.
    pose proof (find_none _ _ Hnone b Hin) as Hp. cbv beta in Hp. rewrite Hp.
    rewrite append_empty_r. reflexivity.
Qed.

Lemma X7_crash_bucket_is_listed_witness :
  vloop_of sample_snapshot = Some sample_slot
  /\ slot_ok sample_slot = true
  /\ exists crash listed,
       section_of (crash_header 50) (stdout (analyze_crash sample_snapshot))
       = Some crash
       /\ section_of surrounding_header (stdout (analyze_crash sample_snapshot))
          = Some listed
       /\ hd "" crash = "Bucket at crash has 2 events:"
       /\ In "Pulse 50: 2 events <-- CRASH" listed.
Proof.
  split; [reflexivity|]. split; [reflexivity|].
  destruct (X7_crash_bucket_is_listed sample_snapshot sample_slot eq_refl eq_refl)
    as [H _].
  apply (H (bk 50 [ev 0x81 40 0; ev 0xB2 7 127]) eq_refl).
Defined.

(** ** The numbers of the bucket analysis *)

Lemma list_max_le_sum (l : list nat) : (list_max l <= list_sum l)%nat.
Proof.
  induction l as [|x l IH]; [apply Nat.le_refl|].
  change (list_max (x :: l)) with (Nat.max x (list_max l)).
  change (list_sum (x :: l)) with (x + list_sum l)%nat. lia.
Qed.

Lemma list_sum_le_length_max (l : list nat) :
  (list_sum l <= List.length l * list_max l)%nat.
Proof.
  induction l as [|x l IH]; [apply Nat.le_refl|].
  change (list_max (x :: l)) with (Nat.max x (list_max l)).
  change (list_sum (x :: l)) with (x + list_sum l)%nat.
  change (List.length (x :: l)) with (S (List.length l)).
  assert (H : (List.length l * list_max l
               <= List.length l * Nat.max x (list_max l))%nat)
    by (apply Nat.mul_le_mono_l; lia).
  lia.
Qed.

Lemma length_le_list_sum (l : list nat) :
  Forall (fun n => (1 <= n)%nat) l -> (List.length l <= list_sum l)%nat.
Proof.
  induction 1 as [|x l Hx _ IH]; [apply Nat.le_refl|].
  change (list_sum (x :: l)) with (x + list_sum l)%nat. simpl List.length. lia.
Qed.

(** X8: the three numbers of the bucket analysis are consistent: with [n]
    buckets, [total] recorded events and a maximum of [mx] events per bucket,
    [mx <= total <= n * mx]; and when no stored bucket is empty, as in a valid
    snapshot, [n <= total]. *)
Theorem X8_bucket_numbers_consistent (data : Snapshot) (vloop : Slot) :
  vloop_of data = Some vloop -> slot_ok vloop = true ->
  exists n total mx,
    section_of bucket_header (stdout (analyze_crash data))
    = Some [ "Non-empty buckets: " ++ str n ++ "/" ++ str (loop_length_of vloop);
             "Total recorded events: " ++ str total;
             "Max events per bucket: " ++ str mx ]
    /\ 0 <= mx <= total
    /\ total <= n * mx
    /\ (Forall (fun b => events_of b <> []) (buckets_of vloop) -> n <= total).
Proof.
  intros Hfound Hok.
  exists (Z.of_nat (List.length (buckets_of vloop))),
    (Z.of_nat (list_sum (event_counts (buckets_of vloop)))),
    (Z.of_nat (list_max (event_counts (buckets_of vloop)))).
  split; [exact (bucket_section _ _ Hfound Hok)|].
  pose proof (list_max_le_sum (event_counts (buckets_of vloop))) as H1.
  pose proof (list_sum_le_length_max (event_counts (buckets_of vloop))) as H2.
  unfold event_counts in H2 at 2. rewrite length_map in H2.
  split; [lia|]. split; [nia|].
  intros Hne.
  assert (H3 : Forall (fun n => (1 <= n)%nat) (event_counts (buckets_of vloop))).
  { unfold event_counts. apply Forall_map. revert Hne. apply Forall_impl.
    intros b Hb. destruct (events_of b); [congruence | simpl; lia]. }
  apply length_le_list_sum in H3. unfold event_counts in H3 at 1.
  rewrite length_map in H3. lia.
Qed.

Lemma X8_bucket_numbers_consistent_witness :
  vloop_of sample_snapshot = Some sample_slot
  /\ slot_ok sample_slot = true
  /\ exists n total mx,
       section_of bucket_header (stdout (analyze_crash sample_snapshot))
       = Some [ "Non-empty buckets: " ++ str n ++ "/" ++ str 64;
                "Total recorded events: " ++ str total;
                "Max events per bucket: " ++ str mx ]
       /\ 0 <= mx <= total /\ total <= n * mx.
Proof.
  split; [reflexivity|]. split; [reflexivity|].
  destruct (X8_bucket_numbers_consistent sample_snapshot sample_slot eq_refl eq_refl)
    as [n [total [mx [Hsec [Hmx [Htot _]]]]]].
  exists n, total, mx. split; [exact Hsec|]. split; assumption.
Defined.

Lemma list_sum_perm (l l' : list nat) : Permutation l l' -> list_sum l = list_sum l'.
Proof.
  induction 1 as [| x l l' _ IH | x y l | l l' l'' _ IH1 _ IH2]; simpl; lia.
Qed.

Lemma list_max_perm (l l' : list nat) : Permutation l l' -> list_max l = list_max l'.
Proof.
  induction 1 as [| x l l' _ IH | x y l | l l' l'' _ IH1 _ IH2]; simpl; lia.
Qed.

(** X9: the bucket analysis does not depend on the order of the bucket
    sequence: two looper slots with the same loop length whose bucket sequences
    are permutations of each other get the same bucket-analysis section. *)
Theorem X9_bucket_analysis_ignores_order (data data' : Snapshot) (vloop vloop' : Slot) :
  vloop_of data = Some vloop -> slot_ok vloop = true ->
  vloop_of data' = Some vloop' -> slot_ok vloop' = true ->
  loop_length_of vloop = loop_length_of vloop' ->
  Permutation (buckets_of vloop) (buckets_of vloop') ->
  section_of bucket_header (stdout (analyze_crash data))
  = section_of bucket_header (stdout (analyze_crash data')).
Proof.
  intros Hfound Hok Hfound' Hok' Hl Hperm.
  rewrite (bucket_section _ _ Hfound Hok), (bucket_section _ _ Hfound' Hok').
  unfold bucket_lines. rewrite Hl, (Permutation_length Hperm).
  assert (Hc : Permutation (event_counts (buckets_of vloop))
                           (event_counts (buckets_of vloop')))
    by (apply Permutation_map, Hperm).
  rewrite (list_sum_perm _ _ Hc), (list_max_perm _ _ Hc). reflexivity.
Qed.

(** ** The size of the surrounding section *)

Lemma NoDup_map_filter {A B} (g : A -> B) (f : A -> bool) (l : list A) :
  NoDup (map g l) -> NoDup (map g (filter f l)).
Proof.
  induction l as [|x l IH]; simpl; intros H; [constructor|].
  inversion H as [|? ? Hx Hl]; subst.
  destruct (f x); [|apply IH, Hl].
  simpl. constructor; [|apply IH, Hl].
  intros Hin. apply Hx. apply in_map_iff in Hin as [y [Hy Hyin]].
  apply in_map_iff. exists y. split; [exact Hy|].
  apply filter_In in Hyin as [Hyin _]. exact Hyin.
Qed.

(** X10: when the pulses of the buckets are distinct, the surrounding section
    has at most seven lines, one for each pulse of the window. *)
Theorem X10_at_most_seven_lines (data : Snapshot) (vloop : Slot) :
  vloop_of data = Some vloop -> slot_ok vloop = true ->
  NoDup (map pulse_of (buckets_of vloop)) ->
  exists listed,
    section_of surrounding_header (stdout (analyze_crash data)) = Some listed
    /\ (List.length listed <= 7)%nat.
Proof.
  intros Hfound Hok Hnd.
  exists (surrounding_lines (crash_pulse_of vloop) (buckets_of vloop)).
  split; [exact (surrounding_section _ _ Hfound Hok)|].
  unfold surrounding_lines. rewrite length_map.
  set (cp := crash_pulse_of vloop). set (bs := buckets_of vloop) in *.
  set (near := filter (in_window cp) bs).
  assert (H : Z.of_nat (List.length (map (fun b => pulse_of b - (cp - 3)) near)) <= 7).
  { apply distinct_pulses_fit; [lia | |].
    - rewrite <- (map_map pulse_of (fun p => p - (cp - 3))).
      apply NoDup_map_NoDup_ForallPairs; [|apply NoDup_map_filter, Hnd].
      intros x y _ _ Hxy. lia.
    - apply Forall_map. apply Forall_forall. intros b Hb.
      apply filter_In in Hb as [_ Hw]. unfold in_window in Hw.
      apply andb_true_iff in Hw as [H1 H2].
      apply Z.leb_le in H1, H2. lia. }
  rewrite length_map in H. lia.
Qed.

Lemma X10_at_most_seven_lines_witness :
  vloop_of sample_snapshot = Some sample_slot
  /\ slot_ok sample_slot = true
  /\ NoDup (map pulse_of (buckets_of sample_slot))
  /\ exists listed,
       section_of surrounding_header (stdout (analyze_crash sample_snapshot))
       = Some listed
       /\ (List.length listed <= 7)%nat.
Proof.
  assert (H : NoDup (map pulse_of (buckets_of sample_slot)))
    by (repeat constructor; simpl; intuition discriminate).
  split; [reflexivity|]. split; [reflexivity|]. split; [exact H|].
  apply (X10_at_most_seven_lines sample_snapshot sample_slot eq_refl eq_refl H).
Defined.

Lemma X9_bucket_analysis_ignores_order_witness :
  vloop_of sample_snapshot = Some sample_slot
  /\ slot_ok sample_slot = true
  /\ vloop_of reversed_snapshot = Some reversed_slot
  /\ slot_ok reversed_slot = true
  /\ loop_length_of sample_slot = loop_length_of reversed_slot
  /\ Permutation (buckets_of sample_slot) (buckets_of reversed_slot)
  /\ section_of bucket_header (stdout (analyze_crash sample_snapshot))
     = section_of bucket_header (stdout (analyze_crash reversed_snapshot)).
Proof.
  assert (H : Permutation (buckets_of sample_slot) (buckets_of reversed_slot))
    by apply Permutation_rev.
  split; [reflexivity|]. split; [reflexivity|]. split; [reflexivity|].
  split; [reflexivity|]. split; [reflexivity|]. split; [exact H|].
  apply (X9_bucket_analysis_ignores_order sample_snapshot reversed_snapshot
           sample_slot reversed_slot eq_refl eq_refl eq_refl eq_refl eq_refl H).
Defined.

(** ** Whole ratios *)

Lemma true_divide_sign (a b : Z) (x : pyfloat) :
  true_divide a b = ret x -> f_neg x = xorb (a <? 0) (b <? 0).
Proof.
  unfold true_divide.
  destruct (b =? 0); [discriminate|].
  destruct (Z.abs a =? 0); [intros [= <-]; reflexivity|].
  destruct ((971 <? _) || _); [discriminate|].
  intros [= <-]. reflexivity.
Qed.

(** A whole quotient below [2^48] is within the range of a float. *)
Lemma true_divide_whole_returns (b q : Z) :
  0 < b -> 0 <= q < 2 ^ 48 -> exists x, true_divide (q * b) b = ret x.
Proof.
  intros Hb Hq. unfold true_divide.
  destruct (Z.eqb_spec b 0) as [|_]; [lia|].
  destruct (Z.eqb_spec (Z.abs (q * b)) 0) as [|Hn]; [eauto|].
  assert (Hq0 : 0 < q) by nia.
  rewrite (Z.abs_eq (q * b)), (Z.abs_eq b) by nia.
  pose proof (quotient_exp_bounds (q * b) b) as He.
  pose proof (Z.log2_mul_above q b ltac:(lia) ltac:(lia)) as Hmul.
  assert (Hlq : Z.log2 q < 48) by (apply Z.log2_lt_pow2; lia).
  set (e := Z.max (quotient_exp (q * b) b - 52) (-1074)).
  assert (Hle : e <= 0) by (unfold e; lia).
  destruct (Z.ltb_spec 971 e); [lia|].
  destruct (Z.eqb_spec e 971); [lia|]. simpl. eauto.
Qed.

Lemma format_whole_1 (x : pyfloat) (q : Z) :
  f_neg x = false -> scaled 1 x = 10 * q -> format_f 1 x = str q ++ ".0".
Proof.
  intros Hneg Hs. unfold format_f. rewrite Hneg, Hs.
  change (10 ^ Z.of_nat 1) with 10.
  rewrite (Z.mul_comm 10 q), Z.div_mul, Z.mod_mul by lia. reflexivity.
Qed.

Lemma format_whole_2 (x : pyfloat) (q : Z) :
  f_neg x = false -> scaled 2 x = 100 * q -> format_f 2 x = str q ++ ".00".
Proof.
  intros Hneg Hs. unfold format_f. rewrite Hneg, Hs.
  change (10 ^ Z.of_nat 2) with 100.
  rewrite (Z.mul_comm 100 q), Z.div_mul, Z.mod_mul by lia. reflexivity.
Qed.

Lemma whole_quotient_printed (b q : Z) :
  0 < b -> 0 <= q < 2 ^ 45 ->
  exists x, true_divide (q * b) b = ret x
            /\ format_f 1 x = str q ++ ".0"
            /\ format_f 2 x = str q ++ ".00".
Proof.
  intros Hb Hq.
  destruct (true_divide_whole_returns b q Hb) as [x Hx]; [change (2 ^ 48) with (8 * 2 ^ 45); lia|].
  exists x. split; [exact Hx|].
  assert (Hneg : f_neg x = false).
  { rewrite (true_divide_sign _ _ _ Hx).
    destruct (Z.ltb_spec (q * b) 0); [nia|].
    destruct (Z.ltb_spec b 0); [lia | reflexivity]. }
  change (2 ^ 45) with 35184372088832 in Hq.
  split.
  - apply format_whole_1; [exact Hneg|].
    apply (true_divide_exact 1 (q * b) b (10 * q) x);
      [repeat constructor | change (2 ^ 52) with 4503599627370496; lia | | exact Hx].
    change (10 ^ Z.of_nat 1) with 10. rewrite !Z.abs_eq by nia. ring.
  - apply format_whole_2; [exact Hneg|].
    apply (true_divide_exact 2 (q * b) b (100 * q) x);
      [repeat constructor | change (2 ^ 52) with 4503599627370496; lia | | exact Hx].
    change (10 ^ Z.of_nat 2) with 100. rewrite !Z.abs_eq by nia. ring.
Qed.

(** X11: whole ratios are printed exactly.  When [stepCallCount] is [q] times
    [totalClockEdges] and [totalClockEdges] is [k] times [loopLength], with
    positive divisors and [q], [k] below [2^45], the performance section is the
    two lines with [q.0] and [k.00] and the report returns normally: rounding
    to a float and then to decimals loses nothing. *)
Theorem X11_whole_ratios_exact (data : Snapshot) (vloop : Slot) (q k : Z) :
  vloop_of data = Some vloop -> slot_ok vloop = true ->
  let calls := get (stepCallCount (debug_of vloop)) 0 in
  let edges := get (totalClockEdges (debug_of vloop)) 0 in
  let l := loop_length_of vloop in
  0 < l -> 0 < k < 2 ^ 45 -> 0 <= q < 2 ^ 45 ->
  edges = k * l -> calls = q * edges ->
  section_of perf_header (stdout (analyze_crash data))
  = Some [ "Avg step() calls per clock: " ++ str q ++ ".0";
           "Loops played before crash: " ++ str k ++ ".00" ]
  /\ outcome (analyze_crash data) = inr tt.
Proof.
  intros Hfound Hok calls edges l Hl Hk Hq Hedges Hcalls.
  assert (Hpos : 0 < edges) by nia.
  destruct (whole_quotient_printed edges q Hpos Hq) as [avg [Havg [Hf1 _]]].
  destruct (whole_quotient_printed l k Hl ltac:(lia)) as [loops [Hloops [_ Hf2]]].
  rewrite <- Hcalls in Havg. rewrite <- Hedges in Hloops.
  assert (Hll : loopLength vloop = Some l).
  { unfold slot_ok in Hok. repeat (apply andb_prop in Hok as [Hok _]).
    unfold l, loop_length_of. destruct (loopLength vloop); [reflexivity | discriminate]. }
  pose proof (performance_stats_run _ _ _ _ Hpos Hll Havg) as Hrun.
  rewrite !bind_print in Hrun. fold edges in Hrun.
  destruct (Z.ltb_spec 0 l); [|lia].
  rewrite Hloops, bind_ret, Hf1, Hf2 in Hrun.
  rewrite (performance_section _ _ Hfound Hok), (report_outcome _ _ Hfound Hok), Hrun.
  split; reflexivity.
Qed.

Lemma X11_whole_ratios_exact_witness :
  vloop_of whole_snapshot = Some whole_slot
  /\ slot_ok whole_slot = true
  /\ section_of perf_header (stdout (analyze_crash whole_snapshot))
     = Some [ "Avg step() calls per clock: 20.0";
              "Loops played before crash: 3.00" ]
  /\ outcome (analyze_crash whole_snapshot) = inr tt.
Proof.
  split; [reflexivity|]. split; [reflexivity|].
  apply (X11_whole_ratios_exact whole_snapshot whole_slot 20 3 eq_refl eq_refl);
    first [reflexivity | split; reflexivity | split; [discriminate | reflexivity]].
Defined.

(** ** What is printed before the buckets are read *)

Lemma stdout_bind_prefix {A B} (c : run A) (k : A -> run B) :
  exists rest, stdout (bind c k) = (stdout c ++ rest)%list.
Proof.
  unfold bind. destruct (outcome c) as [e|a]; cbn [stdout].
  - exists []. symmetry. apply app_nil_r.
  - eexists. reflexivity.
Qed.

(** X12: whatever its buckets hold, a looper slot with the four playback
    fields gets the banner, the playback state, the debug counters, the last
    message sent and the count of buckets printed: these seventeen entries
    come before the first key of a bucket is read. *)
Theorem X12_state_printed_before_buckets (data : Snapshot) (vloop : Slot) :
  vloop_of data = Some vloop ->
  has (loopLength vloop) = true -> has (currentPulse vloop) = true ->
  has (isRecording vloop) = true -> has (isPlaying vloop) = true ->
  firstn 17 (stdout (analyze_crash data))
  = app (report_head vloop)
      [ bucket_header;
        "Non-empty buckets: " ++ str (len (buckets_of vloop)) ++ "/"
          ++ str (loop_length_of vloop) ].
Proof.
  unfold vloop_of, analyze_crash. intros Hv Hl Hp Hr Hq.
  destruct (slots data) as [sl|]; [|discriminate].
  simpl getitem. rewrite bind_ret, Hv.
  destruct (has_Some _ Hl) as [l Hll]. destruct (has_Some _ Hp) as [p Hpp].
  destruct (has_Some _ Hr) as [r Hrr]. destruct (has_Some _ Hq) as [q Hqq].
  rewrite !bind_print, (playback_state_ok _ _ _ _ _ Hll Hpp Hrr Hqq), bind_Run_inr.
  fold (debug_of vloop). fold (buckets_of vloop).
  rewrite debug_counters_ok, bind_Run_inr, last_midi_sent_ok, bind_Run_inr.
  match goal with
  | |- context [stdout (bind (bucket_analysis ?v ?b) ?K)] =>
      destruct (stdout_bind_prefix (bucket_analysis v b) K) as [rest ->]
  end.
  assert (Hb : exists more,
             stdout (bucket_analysis vloop (buckets_of vloop))
             = bucket_header
               :: ("Non-empty buckets: " ++ str (len (buckets_of vloop)) ++ "/" ++ str l)
               :: more).
  { unfold bucket_analysis. rewrite Hll, bind_print. simpl getitem.
    rewrite bind_ret, bind_print. cbn [stdout]. eexists. reflexivity. }
  destruct Hb as [more ->].
  unfold report_head, loop_length_of, crash_pulse_of. rewrite Hll, Hpp, Hrr, Hqq.
  reflexivity.
Qed.

Lemma X12_state_printed_before_buckets_witness :
  vloop_of broken_snapshot
  = Some (mkSlot (Some "VLOP") (Some 16) (Some 3) (Some false) (Some true) None
            (Some [bk 3 [ev 0x90 60 100]; mkBucket (Some 4) None]))
  /\ List.length (stdout (analyze_crash broken_snapshot)) = 17%nat
  /\ nth 16 (stdout (analyze_crash broken_snapshot)) "" = "Non-empty buckets: 2/16".
Proof.
  split; [reflexivity|].
  pose proof (X12_state_printed_before_buckets broken_snapshot _
                eq_refl eq_refl eq_refl eq_refl eq_refl) as H.
  split; [reflexivity|].
  rewrite <- (firstn_all (stdout (analyze_crash broken_snapshot))).
  change (List.length (stdout (analyze_crash broken_snapshot))) with 17%nat.
  rewrite H. reflexivity.
Defined.

(** ** Thousands grouping *)

Lemma uncomma_commas (s : string) : uncomma (commas s) = uncomma s.
Proof.
  induction s as [|c s IH]; [reflexivity|].
  cbn [commas uncomma]. destruct (Ascii.eqb c ",").
  - destruct (negb _ && _); cbn [uncomma]; [simpl Ascii.eqb; cbv iota|]; exact IH.
  - f_equal. destruct (negb _ && _); cbn [uncomma]; [simpl Ascii.eqb; cbv iota|]; exact IH.
Qed.

Lemma uncomma_digits (d : Decimal.uint) :
  uncomma (DecimalString.NilEmpty.string_of_uint d)
  = DecimalString.NilEmpty.string_of_uint d.
Proof. induction d; simpl; rewrite ?IHd; reflexivity. Qed.

Lemma uncomma_uint (d : Decimal.uint) :
  uncomma (DecimalString.NilZero.string_of_uint d)
  = DecimalString.NilZero.string_of_uint d.
Proof.
  unfold DecimalString.NilZero.string_of_uint. destruct d; try reflexivity;
    apply (uncomma_digits (_ d)).
Qed.

(** X13: the thousands grouping of the debug counters only inserts commas:
    taking the commas out of a printed counter gives its plain decimal
    numeral, sign included. *)
Theorem X13_grouping_keeps_digits (z : Z) : uncomma (format_comma z) = str z.
Proof.
  destruct z as [|p|p].
  - reflexivity.
  - change (format_comma (Z.pos p)) with (commas (str (Z.pos p))).
    rewrite uncomma_commas.
    change (str (Z.pos p)) with (DecimalString.NilZero.string_of_uint (Pos.to_uint p)).
    apply uncomma_uint.
  - change (format_comma (Z.neg p)) with (String "-" (commas (str (Z.pos p)))).
    change (str (Z.neg p))
      with (String "-" (DecimalString.NilZero.string_of_uint (Pos.to_uint p))).
    change (uncomma (String "-" ?s)) with (String "-" (uncomma s)).
    rewrite uncomma_commas.
    change (str (Z.pos p)) with (DecimalString.NilZero.string_of_uint (Pos.to_uint p)).
    f_equal. apply uncomma_uint.
Qed.

(** ** An overflow comes last *)

(** X14: a report that ends in [OverflowError] is complete but for its
    statistics: the snapshot has a looper slot with every key that the report
    reads, and its [totalClockEdges] is positive, so all six sections were
    opened before the division failed. *)
Theorem X14_overflow_comes_last (data : Snapshot) :
  outcome (analyze_crash data) = inl OverflowError ->
  exists vloop,
    vloop_of data = Some vloop
    /\ slot_ok vloop = true
    /\ 0 < get (totalClockEdges (debug_of vloop)) 0
    /\ headers_of (stdout (analyze_crash data))
       = [ playback_header; counters_header; bucket_header;
           crash_header (crash_pulse_of vloop); surrounding_header; perf_header ].
Proof.
  intros Hover. destruct (vloop_of data) as [vloop|] eqn:Hfound.
  - exists vloop. split; [reflexivity|].
    destruct (slot_ok vloop) eqn:Hok.
    + split; [reflexivity|]. split.
      * destruct (Z.lt_ge_cases 0 (get (totalClockEdges (debug_of vloop)) 0))
          as [Hpos|Hle]; [exact Hpos|].
        rewrite (report_outcome _ _ Hfound Hok),
          (performance_stats_idle _ _ Hle) in Hover. discriminate Hover.
      * rewrite (analyze_crash_ok _ _ Hfound Hok). cbn [stdout].
        destruct (performance_stats_shape vloop (debug_of vloop)) as [body [-> Hbody]].
        rewrite !headers_of_app.
        change (headers_of (report_head vloop)) with [playback_header; counters_header].
        rewrite !headers_of_header by reflexivity.
        pose proof (headers_of_plain _
                      (bucket_lines_plain (loop_length_of vloop) (buckets_of vloop)))
          as H1.
        pose proof (headers_of_plain _
                      (crash_lines_plain (crash_pulse_of vloop) (buckets_of vloop)))
          as H2.
        pose proof (headers_of_plain _
                      (surrounding_lines_plain (crash_pulse_of vloop)
                         (buckets_of vloop))) as H3.
        rewrite H1, H2, H3, (headers_of_plain _ Hbody). reflexivity.
    + destruct (analyze_crash_incomplete _ _ Hfound Hok) as [key Hkey].
      rewrite Hkey in Hover. discriminate Hover.
  - unfold vloop_of in Hfound. unfold analyze_crash in Hover.
    destruct (slots data) as [sl|]; [|discriminate Hover].
    simpl getitem in Hover. rewrite bind_ret, Hfound in Hover. discriminate Hover.
Qed.

Lemma X14_overflow_comes_last_witness :
  outcome (analyze_crash overflow_snapshot) = inl OverflowError
  /\ exists vloop,
       vloop_of overflow_snapshot = Some vloop
       /\ slot_ok vloop = true
       /\ 0 < get (totalClockEdges (debug_of vloop)) 0.
Proof.
  assert (H : outcome (analyze_crash overflow_snapshot) = inl OverflowError)
    by (vm_compute; reflexivity).
  split; [exact H|].
  destruct (X14_overflow_comes_last overflow_snapshot H) as [vloop [H1 [H2 [H3 _]]]].
  exists vloop. split; [exact H1|]. split; assumption.
Defined.

(** ** Events away from the crash pulse *)

Lemma outline_count (cp : Z) (b b' : Bucket) :
  same_outline cp b b' ->
  (evs <- getitem "events" (events b) ;; ret (len evs))
  = (evs <- getitem "events" (events b') ;; ret (len evs)).
Proof.
  intros [_ [Hlen _]].
  destruct (events b) as [evs|], (events b') as [evs'|]; try discriminate;
    [|reflexivity].
  injection Hlen as Hlen. simpl getitem. rewrite !bind_ret. unfold len.
  rewrite Hlen. reflexivity.
Qed.

Lemma outline_pulses (cp : Z) (bs bs' : list Bucket) :
  Forall2 (same_outline cp) bs bs' ->
  mapM (fun b => getitem "pulse" (pulse b)) bs
  = mapM (fun b => getitem "pulse" (pulse b)) bs'.
Proof.
  intros Hsame. induction Hsame as [|b b' l l' [Hp _] _ IH]; simpl; [reflexivity|].
  rewrite Hp, IH. reflexivity.
Qed.

Lemma outline_counts (cp : Z) (bs bs' : list Bucket) :
  Forall2 (same_outline cp) bs bs' ->
  mapM (fun b => evs <- getitem "events" (events b) ;; ret (len evs)) bs
  = mapM (fun b => evs <- getitem "events" (events b) ;; ret (len evs)) bs'.
Proof.
  intros Hsame. induction Hsame as [|b b' l l' Hb _ IH]; simpl; [reflexivity|].
  rewrite (outline_count _ _ _ Hb), IH. reflexivity.
Qed.

Lemma outline_bucket_analysis (cp : Z) (bs bs' : list Bucket) (vloop : Slot) :
  Forall2 (same_outline cp) bs bs' ->
  bucket_analysis vloop bs = bucket_analysis vloop bs'.
Proof.
  intros Hsame.
  assert (Hlen : len bs = len bs')
    by (unfold len; rewrite (Forall2_length Hsame); reflexivity).
  unfold bucket_analysis.
  rewrite Hlen, (outline_pulses _ _ _ Hsame), (outline_counts _ _ _ Hsame).
  destruct Hsame; reflexivity.
Qed.

Lemma outline_crash_point (cp : Z) (bs bs' : list Bucket) :
  Forall2 (same_outline cp) bs bs' -> crash_point cp bs = crash_point cp bs'.
Proof.
  intros Hsame. unfold crash_point. f_equal.
  apply (f_equal (fun k => fun _ : unit => k)).
  induction Hsame as [|b b' l l' [Hp [_ Hev]] _ IH]; [reflexivity|].
  cbn [find_crash_bucket]. rewrite <- Hp.
  destruct (pulse b) as [p|]; [|reflexivity].
  simpl getitem. rewrite !bind_ret.
  destruct (Z.eqb_spec p cp) as [->|_]; [|exact IH].
  rewrite !bind_ret, (Hev eq_refl). reflexivity.
Qed.

Lemma outline_surrounding (cp : Z) (bs bs' : list Bucket) :
  Forall2 (same_outline cp) bs bs' ->
  surrounding_buckets cp bs = surrounding_buckets cp bs'.
Proof.
  intros Hsame. unfold surrounding_buckets. f_equal.
  apply (f_equal (fun k => fun _ : unit => k)).
  induction Hsame as [|b b' l l' [Hp [Hlen _]] _ IH]; [reflexivity|].
  cbn [surrounding_loop]. rewrite <- Hp, IH.
  destruct (pulse b) as [p|]; [|reflexivity].
  simpl getitem. rewrite !bind_ret.
  destruct ((cp - 3 <=? p) && (p <=? cp + 3)); [|reflexivity].
  rewrite ?bind_ret.
  destruct (events b) as [evs|], (events b') as [evs'|]; try discriminate;
    [|reflexivity].
  injection Hlen as Hlen. simpl getitem. rewrite ?bind_ret. unfold len.
  rewrite Hlen. reflexivity.
Qed.

(** X15: events stored away from the crash pulse are counted and never
    looked at.  Replacing the bucket sequence of the looper slot by one whose
    buckets have the same pulses and the same numbers of events, and the same
    events at the crash pulse, leaves the whole run unchanged, printed output
    and outcome. *)
Theorem X15_other_events_only_counted (vloop : Slot) (cp : Z) (bs bs' : list Bucket) :
  currentPulse vloop = Some cp ->
  Forall2 (same_outline cp) bs bs' ->
  analyze_crash (mkSnapshot (Some [with_buckets vloop bs]))
  = analyze_crash (mkSnapshot (Some [with_buckets vloop bs'])).
Proof.
  intros Hcp Hsame. unfold analyze_crash. cbn [slots]. simpl getitem.
  rewrite !bind_ret. cbn [find_vloop with_buckets guid].
  destruct (match guid vloop with Some g => String.eqb g "VLOP" | None => false end);
    [|reflexivity].
  change (playback_state (with_buckets vloop bs'))
    with (playback_state (with_buckets vloop bs)).
  cbn [debug buckets currentPulse with_buckets get].
  change (bucket_analysis (with_buckets vloop bs) bs)
    with (bucket_analysis vloop bs).
  change (bucket_analysis (with_buckets vloop bs') bs')
    with (bucket_analysis vloop bs').
  change (performance_stats (with_buckets vloop bs) ?d)
    with (performance_stats vloop d).
  change (performance_stats (with_buckets vloop bs') ?d)
    with (performance_stats vloop d).
  rewrite (outline_bucket_analysis cp bs bs' vloop Hsame), Hcp.
  simpl getitem. rewrite !bind_ret.
  rewrite (outline_crash_point cp bs bs' Hsame),
    (outline_surrounding cp bs bs' Hsame).
  reflexivity.
Qed.

Lemma X15_other_events_only_counted_witness :
  currentPulse sample_slot = Some 50
  /\ Forall2 (same_outline 50) (buckets_of sample_slot) hollow_buckets
  /\ analyze_crash (mkSnapshot (Some [with_buckets sample_slot (buckets_of sample_slot)]))
     = analyze_crash (mkSnapshot (Some [with_buckets sample_slot hollow_buckets])).
Proof.
  assert (H : Forall2 (same_outline 50) (buckets_of sample_slot) hollow_buckets).
  { repeat constructor; try discriminate. }
  split; [reflexivity|]. split; [exact H|].
  apply (X15_other_events_only_counted sample_slot 50 _ _ eq_refl H).
Defined.
